(** * autoregression/galgraphs.py: plotting helpers for regression analysis

    A shallow embedding of the control logic of [galgraphs.py]: the column
    classifier [sort_features], the chunked scatter-matrix loop of
    [plot_scatter_matrix], the eligibility filter of [plot_many_univariates],
    and the capability checks of [plot_feature_importances] and [plot_rocs].

    Drawing is an effect: every call into matplotlib or the plotting side of
    pandas is recorded as an [event] of a trace, and a Python exception ends
    the run with the trace so far.  What pandas, numpy and matplotlib raise
    on the labels, sizes and shapes this module hands them is modelled.
    What a library computes from the values in floating point is not: the
    scatter-matrix renderer with its kernel density estimate, an
    estimator's [predict] and [predict_proba], scikit-learn's ROC curve, a
    pipeline's [transform] and the residuals of [plot_residual] are
    parameters of the development, each either returning or raising with a
    reason; which cells are numbers is a parameter too.  The calls into
    [regression_tools], which is not part of this module, are recorded as
    events.

    The second part embeds the other functions of the module that decide
    something themselves: [emperical_distribution], [plot_many_residuals],
    [plot_predicted_vs_actuals], [plot_many_predicteds_vs_actuals],
    [simple_spline_specification], [plot_solution_paths],
    [gal_display_coef], [shaped_plot_partial_dependences] and
    [plot_partial_dependences]. *)

From Stdlib Require Import ZArith String Ascii Arith Bool Lia PeanoNat List.
From Equations Require Import Equations.
Import ListNotations.
Open Scope string_scope.
Open Scope list_scope.
Open Scope nat_scope.

(** What a library computes from the values: it raises, for a reason, or
    returns. *)
Inductive computed (A : Type) : Type :=
| Fails (reason : string)
| Returns (a : A).
Arguments Fails {A} reason.
Arguments Returns {A} a.

Section Galgraphs.

(** Cell values of a dataframe, with the equality [Series.unique] uses. *)
Context {cell : Type} (cell_eq_dec : forall a b : cell, {a = b} + {a <> b}).

(** ** Python values that reach the functions as labels *)

(** A label argument: [None] (the default of [y_var_name]) or a [str]. *)
Inductive pyval : Type :=
| PyNone
| PyStr (s : string).

(** Python truthiness, as tested by [if y_var_name:]. *)
Definition truthy (v : pyval) : bool :=
  match v with
  | PyNone => false
  | PyStr s => negb (String.eqb s EmptyString)
  end.

Definition pyval_eqb (a b : pyval) : bool :=
  match a, b with
  | PyNone, PyNone => true
  | PyStr s, PyStr t => String.eqb s t
  | _, _ => false
  end.

(** ** numpy dtypes *)

(** The five dtypes [sort_features] compares against, and every other one
    (datetime64, complex128, narrower integer and float widths, pandas
    extension types) under its name. *)
Inductive np_dtype : Type :=
| dtype_int                     (* np.dtype('int'): the default integer *)
| dtype_float                   (* np.dtype('float'): the default float *)
| dtype_O                       (* np.dtype('O'): object *)
| dtype_U                       (* np.dtype('<U'): unicode string *)
| dtype_bool                    (* np.dtype('bool') *)
| dtype_other (name : string).

Definition dtype_eqb (a b : np_dtype) : bool :=
  match a, b with
  | dtype_int, dtype_int => true
  | dtype_float, dtype_float => true
  | dtype_O, dtype_O => true
  | dtype_U, dtype_U => true
  | dtype_bool, dtype_bool => true
  | dtype_other n, dtype_other m => String.eqb n m
  | _, _ => false
  end.

(** ** Dataframes *)

Record Series : Type := mkSeries {
  s_dtype : np_dtype;
  s_values : list cell
}.

(** [df_len] is [len(df)], the length of the index; the columns keep the
    order of [df.columns] and pandas lets labels repeat. *)
Record DataFrame : Type := mkDataFrame {
  df_len : nat;
  df_columns : list (string * Series)
}.

Definition labels (df : DataFrame) : list string := map fst (df_columns df).

Definition unique_labels (df : DataFrame) : Prop := NoDup (labels df).

Definition has_column (df : DataFrame) (name : string) : bool :=
  existsb (String.eqb name) (labels df).

(** ** Exceptions *)

(** Library exceptions by what raises them; [ValueError] is the one this
    module raises itself, with its message. *)
Inductive exn : Type :=
| KeyError (key : pyval)        (* pandas: label not in the columns *)
| DropWithoutLabels             (* pandas ValueError: drop(None, axis=1) *)
| SampleLargerThanPopulation    (* pandas ValueError: sample(n) with n > len *)
| EmptySequence                 (* ValueError of min()/max() on no values *)
| NoAttribute (attr : string)   (* AttributeError *)
| LengthMismatch                (* pandas ValueError: values vs index length *)
| AbsOfLabel                    (* numpy TypeError: np.abs of a str *)
| NotNumbers                    (* TypeError: min() or np.abs on values that are no numbers *)
| FormatError                   (* TypeError: a format width on a value without one *)
| LibraryError (reason : string)
    (* raised inside a renderer or an estimator, on the values it is given *)
| ValueError (msg : string).

Definition outcome {A : Type} (c : computed A) : exn + A :=
  match c with
  | Fails reason => inl (LibraryError reason)
  | Returns a => inr a
  end.

(** ** sort_features *)

(** In the spec's words, a declared type that is integer or float: numpy's
    signed and unsigned integers and its floats, of every width.
    [np.dtype('int')] and [np.dtype('float')] are the default widths among
    them. *)
Definition spec_integer_or_float (type : np_dtype) : bool :=
  match type with
  | dtype_int | dtype_float => true
  | dtype_other name =>
      existsb (String.eqb name)
        ["int8"; "int16"; "int32"; "uint8"; "uint16"; "uint32"; "uint64";
         "float16"; "float32"]
  | _ => false
  end.

Definition is_continuous (type : np_dtype) : bool :=
  dtype_eqb type dtype_int || dtype_eqb type dtype_float.

Definition is_category (type : np_dtype) : bool :=
  dtype_eqb type dtype_O || dtype_eqb type dtype_U || dtype_eqb type dtype_bool.

(** One turn of [for type, feature in zip(df.dtypes, df.dtypes.index)]:
    two independent [if]s, each appending to its list. *)
Definition sort_features_step (acc : list string * list string)
    (col : string * Series) : list string * list string :=
  let '(continuous_features, category_features) := acc in
  let '(feature, series) := col in
  let type := s_dtype series in
  let continuous_features :=
    if is_continuous type then continuous_features ++ [feature]
    else continuous_features in
  let category_features :=
    if is_category type then category_features ++ [feature]
    else category_features in
  (continuous_features, category_features).

Definition sort_features (df : DataFrame) : list string * list string :=
  fold_left sort_features_step (df_columns df) ([], []).

(** The classification in the spec's words: the labels of the columns of a
    continuous dtype, and of a categorical dtype, each in column order. *)
Definition continuous_labels (cols : list (string * Series)) : list string :=
  map fst (filter (fun c => is_continuous (s_dtype (snd c))) cols).

Definition category_labels (cols : list (string * Series)) : list string :=
  map fst (filter (fun c => is_category (s_dtype (snd c))) cols).

(** ** Effects: a trace of drawing calls, ended by an exception or a value *)

Inductive event : Type :=
| ScatterMatrix (columns : list string) (rows : nat)
    (* plot_one_scatter_matrix on a frame of these columns and that many rows *)
| PltShow                                           (* plt.show() *)
| Subplots (nrows ncols : nat)                      (* plt.subplots(nrows, ncols) *)
| AxSetYlim (ax : nat)
| AxSetXlim (ax : nat)
| UnivariateSmooth (ax : nat) (x : string) (y : pyval)
| AxSetTitle (ax : nat) (title : string)
| AxSetXlabel (ax : nat) (text : string)
| AxSetYlabel (ax : nat) (text : string)
| AxLegend (ax : nat)
| RocCurve (ax : nat) (label : string)              (* ax.plot(fpr, tpr, label=...) *)
| ChanceLine (ax : nat)                             (* ax.plot([0, 1], [0, 1], 'r--') *)
| FigSetTightLayout
| FigTightLayout
| BarhPlot (bars : nat)                             (* feat_scores.plot(kind='barh') *)
| PyPrint (text : string).

Definition result (A : Type) : Type := exn + A.

Definition rbind {A B : Type} (r : result A) (k : A -> result B) : result B :=
  match r with
  | inl e => inl e
  | inr a => k a
  end.

Definition io (A : Type) : Type := list event * result A.

Definition ret {A : Type} (a : A) : io A := ([], inr a).

Definition bind {A B : Type} (m : io A) (k : A -> io B) : io B :=
  match m with
  | (tr, inl e) => (tr, inl e)
  | (tr, inr a) => let (tr', r) := k a in (tr ++ tr', r)
  end.

Definition emit (e : event) : io unit := ([e], inr tt).

Definition raise {A : Type} (e : exn) : io A := ([], inl e).

Definition lift {A : Type} (r : result A) : io A := ([], r).

Notation "x <- m ;; k" := (bind m (fun x => k))
  (at level 61, m at next level, right associativity).
Notation "m ;; k" := (bind m (fun _ => k))
  (at level 61, right associativity).

(** [for x in l: body(x)] *)
Fixpoint for_each {A : Type} (l : list A) (body : A -> io unit) : io unit :=
  match l with
  | [] => ret tt
  | x :: l' => body x ;; for_each l' body
  end.

(** [list(filter(p, l))] for a predicate that may raise. *)
Fixpoint filter_raising {A : Type} (p : A -> result bool) (l : list A)
    : result (list A) :=
  match l with
  | [] => inr []
  | x :: l' =>
      rbind (p x) (fun keep =>
      rbind (filter_raising p l') (fun rest =>
      inr (if keep then x :: rest else rest)))
  end.

(** ** The pandas operations the module calls *)

Definition columns_named (df : DataFrame) (name : string)
    : list (string * Series) :=
  filter (fun c => String.eqb (fst c) name) (df_columns df).

(** [df.drop(labels, axis=1)]: every column of that label goes; no labels
    or an unknown label raises. *)
Definition df_drop (df : DataFrame) (labels : pyval) : result DataFrame :=
  match labels with
  | PyNone => inl DropWithoutLabels
  | PyStr name =>
      if has_column df name
      then inr (mkDataFrame (df_len df)
                  (filter (fun c => negb (String.eqb (fst c) name))
                     (df_columns df)))
      else inl (KeyError labels)
  end.

(** [df[[k1, ..., kn]]]: the columns of each label in turn; a key that is
    no column label raises [KeyError]. *)
Fixpoint select_columns (df : DataFrame) (keys : list pyval)
    : result (list (string * Series)) :=
  match keys with
  | [] => inr []
  | PyNone :: _ => inl (KeyError PyNone)
  | PyStr name :: keys' =>
      if has_column df name
      then rbind (select_columns df keys') (fun cs =>
           inr (columns_named df name ++ cs))
      else inl (KeyError (PyStr name))
  end.

Definition df_getitem_list (df : DataFrame) (keys : list pyval)
    : result DataFrame :=
  rbind (select_columns df keys) (fun cs => inr (mkDataFrame (df_len df) cs)).

(** What [df[key]] is for one label: a Series, or a sub-frame when the
    label repeats. *)
Inductive item : Type :=
| ItemSeries (s : Series)
| ItemFrame (cols : list (string * Series)).

Definition df_getitem (df : DataFrame) (key : pyval) : result item :=
  match key with
  | PyNone => inl (KeyError PyNone)
  | PyStr name =>
      match columns_named df name with
      | [] => inl (KeyError key)
      | [(_, s)] => inr (ItemSeries s)
      | cs => inr (ItemFrame cs)
      end
  end.

(** [len(df[x].unique())]: a sub-frame has no [unique]. *)
Definition len_unique (df : DataFrame) (x : string) : result nat :=
  rbind (df_getitem df (PyStr x)) (fun it =>
  match it with
  | ItemSeries s => inr (length (nodup cell_eq_dec (s_values s)))
  | ItemFrame _ => inl (NoAttribute "unique")
  end).

(** [df.sample(n=n)] draws rows at random; the model keeps the shape of
    the sample, its column labels and its row count.  Without replacement
    it raises when [n] exceeds the rows there are. *)
Definition df_sample (df : DataFrame) (n : nat) : result (list string * nat) :=
  if n <=? df_len df then inr (labels df, n)
  else inl SampleLargerThanPopulation.

(** ** Python list operations *)

(** [v in l] *)
Definition py_in (v : pyval) (l : list string) : bool :=
  match v with
  | PyNone => false
  | PyStr s => existsb (String.eqb s) l
  end.

Fixpoint remove_first (s : string) (l : list string) : list string :=
  match l with
  | [] => []
  | x :: l' => if String.eqb x s then l' else x :: remove_first s l'
  end.

(** [l.remove(v)], called only under [v in l]. *)
Definition list_remove (v : pyval) (l : list string) : list string :=
  match v with
  | PyNone => l
  | PyStr s => remove_first s l
  end.

(** ** plot_scatter_matrix *)

(** What [pd.plotting.scatter_matrix(..., diagonal="kde")] does with the
    sample it is given, by the columns and the number of rows of the
    sample: [None] when it returns, the reason when it raises (a sample of
    no rows, a column the density estimate cannot be fitted to, a label
    that repeats).  The rows of a sample are drawn at random; the parameter
    stands for the outcomes of one run. *)
Context (scatter_matrix_raises : list string -> nat -> option string).

(** The call is recorded, then the renderer returns or raises. *)
Definition plot_one_scatter_matrix (plot_sample_df : list string * nat)
    : io unit :=
  emit (ScatterMatrix (fst plot_sample_df) (snd plot_sample_df)) ;;
  match scatter_matrix_raises (fst plot_sample_df) (snd plot_sample_df) with
  | Some reason => raise (LibraryError reason)
  | None => ret tt
  end.

(** The [while 5 < len(continuous_features)] loop; it returns the features
    left for the statement after it. *)
Equations? scatter_loop (df : DataFrame) (y_var_name : pyval)
    (sample_limit : nat) (continuous_features : list string)
    : io (list string) by wf (length continuous_features) lt :=
scatter_loop df y_var_name sample_limit continuous_features
    with lt_dec 5 (length continuous_features) := {
  | left _ =>
      plot_sample_df <-
        lift (rbind
                (df_getitem_list df
                   (if truthy y_var_name
                    then y_var_name :: map PyStr (firstn 6 continuous_features)
                    else map PyStr (firstn 6 continuous_features)))
                (fun chunk => df_sample chunk sample_limit)) ;;
      plot_one_scatter_matrix plot_sample_df ;;
      emit PltShow ;;
      scatter_loop df y_var_name sample_limit (skipn 5 continuous_features)
  | right _ => ret continuous_features }.
Proof.
  change (List.length (skipn 5 continuous_features)
          < List.length continuous_features).
  rewrite length_skipn. lia.
Qed.

(** The chunk planner, lines 144 to 157: the loop, then the statement that
    renders what the loop left, which prefixes [y_var_name] as it is. *)
Definition render_chunks (df : DataFrame) (y_var_name : pyval)
    (sample_limit : nat) (continuous_features : list string) : io unit :=
  continuous_features <-
    scatter_loop df y_var_name sample_limit continuous_features ;;
  plot_sample_df <-
    lift (rbind
            (df_getitem_list df (y_var_name :: map PyStr continuous_features))
            (fun chunk => df_sample chunk sample_limit)) ;;
  plot_one_scatter_matrix plot_sample_df.

(** Lines 137 to 140. *)
Definition sample_limit_of (df : DataFrame) : nat :=
  if df_len df <? 300 then df_len df else 300.

Definition plot_scatter_matrix (df : DataFrame) (y_var_name : pyval)
    : io unit :=
  dropped <- lift (df_drop df y_var_name) ;;
  let '(continuous_features, category_features) := sort_features dropped in
  let sample_limit := sample_limit_of df in
  let continuous_features :=
    if truthy y_var_name
    then if py_in y_var_name continuous_features
         then list_remove y_var_name continuous_features
         else continuous_features
    else continuous_features in
  render_chunks df y_var_name sample_limit continuous_features.

(** The chunks a run rendered: the column lists of its scatter matrices. *)
Definition chunks (tr : list event) : list (list string) :=
  flat_map (fun e => match e with
                     | ScatterMatrix cols _ => [cols]
                     | _ => []
                     end) tr.

(** ceil(n / 5) *)
Definition ceil_div5 (n : nat) : nat := (n + 4) / 5.

(** ** plot_one_univariate and plot_many_univariates *)

(** The values [min], [max] and [np.abs] take: numbers.  A column of dtype
    int, float or bool holds numbers; a column of another dtype (object,
    as pandas stores strings, or one the module does not test for) may
    hold strings or dates, which [np.abs] refuses. *)
Context (is_number : cell -> bool).

Definition numeric (s : Series) : bool :=
  match s_dtype s with
  | dtype_int | dtype_float | dtype_bool => true
  | _ => forallb is_number (s_values s)
  end.

(** [min(df[y_var_name])] and [max(...)] come first: an unknown label
    raises, a Series of no rows has no minimum, and over a sub-frame [min]
    ranges over the labels, which [np.abs] refuses.  The limits are
    computed with [np.abs] before [ax.set_ylim] is called: values that are
    no numbers raise [TypeError].  Then the limits are set and
    [plot_univariate_smooth] draws on [ax] ([mask] is [None]). *)
Definition plot_one_univariate (ax : nat) (df : DataFrame)
    (x_var_name : string) (y_var_name : pyval) : io unit :=
  ys <- lift (df_getitem df y_var_name) ;;
  match ys with
  | ItemSeries s =>
      match s_values s with
      | [] => raise EmptySequence
      | _ :: _ =>
          if numeric s then
            emit (AxSetYlim ax) ;;
            xs <- lift (df_getitem df (PyStr x_var_name)) ;;
            emit (UnivariateSmooth ax x_var_name y_var_name)
          else raise NotNumbers
      end
  | ItemFrame _ => raise AbsOfLabel
  end.

(** [int(np.ceil(n / 2.0))] *)
Definition ceil_half (n : nat) : nat := (n + 1) / 2.

(** [enumerate(l)] *)
Definition enumerate {A : Type} (l : list A) : list (nat * A) :=
  combine (seq 0 (List.length l)) l.

Definition plot_many_univariates (df : DataFrame) (y_var_name : pyval)
    : io unit :=
  let '(continuous_features, category_features) := sort_features df in
  continuous_features_greater_two <-
    lift (filter_raising
            (fun x => rbind (len_unique df x) (fun n => inr (2 <? n)))
            continuous_features) ;;
  if 1 <? List.length continuous_features_greater_two then
    let num_plot_rows :=
      ceil_half (List.length continuous_features_greater_two) in
    emit (Subplots num_plot_rows 2) ;;
    for_each (enumerate continuous_features_greater_two)
      (fun '(i, continuous_feature) =>
         plot_one_univariate i df continuous_feature y_var_name ;;
         emit (AxSetTitle i (continuous_feature ++ ": Univariate Plot")%string))
  else if List.length continuous_features_greater_two =? 1 then
    emit (Subplots (List.length continuous_features_greater_two) 1) ;;
    for_each (enumerate continuous_features_greater_two)
      (fun '(i, continuous_feature) =>
         plot_one_univariate 0 df continuous_feature y_var_name ;;
         emit (AxSetTitle 0 (continuous_feature ++ ": Univariate Plot")%string) ;;
         emit FigSetTightLayout ;;
         emit FigTightLayout)
  else
    emit (PyPrint "No Continous Features to Plot").


(** The figures a run created. *)
Definition figures (tr : list event) : list event :=
  filter (fun e => match e with
                   | Subplots _ _ | ScatterMatrix _ _ | BarhPlot _ => true
                   | _ => false
                   end) tr.

(** A column that the univariate plots take: continuous, with more than
    two distinct values. *)
Definition eligible (s : Series) : bool :=
  is_continuous (s_dtype s) && (2 <? List.length (nodup cell_eq_dec (s_values s))).

(** ** Models *)

(** What the module asks of a fitted model: its class name (chart labels),
    its [str] (what an f-string prints), its [dir], and how many
    importances it carries when it has the attribute. *)
Record Model : Type := mkModel {
  class_name : string;
  model_str : string;
  model_dir : list string;
  importances_len : nat
}.

(** ['attr' in dir(model)] *)
Definition in_dir (attr : string) (model : Model) : bool :=
  existsb (String.eqb attr) (model_dir model).

(** ** plot_feature_importances *)

Definition no_importances_message (model : Model) : string :=
  ("Model: " ++ model_str model
   ++ " doesn't have feature_importances_, unable to plot")%string.

(** With the attribute, a one-column frame indexed by [df_X.columns] is
    built (pandas raises when the lengths differ), sorted and drawn as
    horizontal bars; without it, [ValueError] is raised. *)
Definition plot_feature_importances (model : Model) (df_X : DataFrame)
    : io unit :=
  if in_dir "feature_importances_" model then
    if importances_len model =? List.length (labels df_X)
    then emit (BarhPlot (List.length (labels df_X)))
    else raise LengthMismatch
  else
    raise (ValueError (no_importances_message model)).

(** ** plot_roc and plot_rocs *)

(** The labels [y], and what scikit-learn computes from them for a model
    that has [predict_proba]: [model.predict_proba(X)], [roc_curve] and
    [auc] raise on data they do not take (a column of strings, labels of
    one class, rows that do not match), and otherwise give the area, of
    which ['%0.2f' % roc_auc] is the text. *)
Context {target : Type}
  (auc_text : Model -> DataFrame -> target -> computed string).

(** [pipeline.transform(df_X)] under [if pipeline:]; the transformer may
    raise. *)
Definition pipeline_transform
    (pipeline : option (DataFrame -> computed DataFrame)) (df_X : DataFrame)
    : result DataFrame :=
  match pipeline with
  | Some transform => outcome (transform df_X)
  | None => inr df_X
  end.

(** [f'AUC {model.__class__.__name__} = %0.2f' % roc_auc] *)
Definition roc_label (model : Model) (roc_auc : string) : string :=
  ("AUC " ++ class_name model ++ " = " ++ roc_auc)%string.

(** The probabilities, the curve and its area are computed before the first
    drawing call. *)
Definition plot_roc (ax : nat) (model : Model) (df_X : DataFrame) (y : target)
    (pipeline : option (DataFrame -> computed DataFrame)) : io unit :=
  X <- lift (pipeline_transform pipeline df_X) ;;
  roc_auc <- lift (outcome (auc_text model X y)) ;;
  emit (AxSetTitle ax "Receiver Operating Characteristic") ;;
  emit (RocCurve ax (roc_label model roc_auc)) ;;
  emit (AxLegend ax) ;;
  emit (ChanceLine ax) ;;
  emit (AxSetXlim ax) ;;
  emit (AxSetYlim ax) ;;
  emit (AxSetYlabel ax "True Positive Rate") ;;
  emit (AxSetXlabel ax "False Positive Rate").

Definition plot_rocs (models : list Model) (df_X : DataFrame) (y : target)
    (pipeline : option (DataFrame -> computed DataFrame)) : io unit :=
  df_X <- lift (pipeline_transform pipeline df_X) ;;
  emit (Subplots 1 1) ;;
  for_each models
    (fun model =>
       if in_dir "predict_proba" model
       then plot_roc 0 model df_X y None
       else ret tt).


(** * The other functions of the module *)

(** ** More exceptions, more drawing calls *)

(** The exceptions of the functions below: those above, and what Python,
    numpy and matplotlib raise besides. *)
Inductive pyexn : Type :=
| Raised (e : exn)
| IndexError             (* df.columns[0] of no columns *)
| ZeroDivisionError      (* 1.0 / 0 *)
| NotIterable            (* TypeError: zip over a single Axes *)
| NotInList              (* ValueError: list.remove(x), x not in list *)
| NothingToConcatenate   (* ValueError: np.concatenate([]) *)
| DimensionMismatch      (* ValueError: np.concatenate of rows of unequal sizes *)
| NoRows                 (* ValueError: plt.subplots of no rows *)
| SizeMismatch.          (* ValueError: ax.scatter, x and y must be the same size *)

(** What is scattered against a column. *)
Inductive ydata : Type :=
| Actuals (y : pyval)    (* df[y_var_name] *)
| Predictions            (* model.predict(X) *)
| Residuals.             (* np.abs(y.astype(int) - y_hat) *)

Inductive call : Type :=
| Drawn (e : event)
| AxHline (ax : nat)                                   (* ax.axhline(0, ...) *)
| AxScatter (ax : nat) (x : string) (ys : ydata) (color : option string)
| PartialDependence (ax : nat) (model : Model) (var_name : string)
    (color : option string)                            (* plot_partial_depenence *)
| PredictedsVsActuals (ax : nat) (x : string)          (* predicteds_vs_actuals *)
| CoefficientPath (ax : nat) (idx : nat) (points : nat).
    (* ax.plot(alphas, coeffs[:, idx]) *)

Definition act (A : Type) : Type := list call * (pyexn + A).

Definition areturn {A : Type} (a : A) : act A := ([], inr a).

Definition abind {A B : Type} (m : act A) (k : A -> act B) : act B :=
  match m with
  | (tr, inl e) => (tr, inl e)
  | (tr, inr a) => let (tr', r) := k a in (tr ++ tr', r)
  end.

Definition acall (c : call) : act unit := ([c], inr tt).

Definition draw (e : event) : act unit := acall (Drawn e).

Definition araise {A : Type} (e : pyexn) : act A := ([], inl e).

(** A pandas operation of the first part, run here. *)
Definition of_result {A : Type} (r : result A) : act A :=
  match r with
  | inl e => ([], inl (Raised e))
  | inr a => ([], inr a)
  end.

Notation "x <~ m ;; k" := (abind m (fun x => k))
  (at level 61, m at next level, right associativity).
Notation "m ;;; k" := (abind m (fun _ => k))
  (at level 61, right associativity).

Fixpoint afor_each {A : Type} (l : list A) (body : A -> act unit) : act unit :=
  match l with
  | [] => areturn tt
  | x :: l' => body x ;;; afor_each l' body
  end.

(** What [plt.subplots(n)] returns as its axes: one Axes for one row, an
    array of them for more; [plt.subplots(nrows, 2)] always gives an array,
    which the callers flatten.  A grid of no rows is refused. *)
Inductive axes : Type :=
| OneAxes
| AxesArray (n : nat).

Definition plt_subplots (n : nat) : act axes :=
  match n with
  | 0 => araise NoRows
  | 1 => draw (Subplots 1 1) ;;; areturn OneAxes
  | _ => draw (Subplots n 1) ;;; areturn (AxesArray n)
  end.

Definition plt_subplots_grid (nrows ncols : nat) : act axes :=
  match nrows with
  | 0 => araise NoRows
  | _ => draw (Subplots nrows ncols) ;;; areturn (AxesArray (nrows * ncols))
  end.

(** [zip(axs, l)]: a single Axes is not iterable. *)
Definition zip_axes {A : Type} (axs : axes) (l : list A) : act (list (nat * A)) :=
  match axs with
  | OneAxes => araise NotIterable
  | AxesArray n => areturn (combine (seq 0 n) l)
  end.

(** [axs.flatten()[i]] *)
Definition flatten_at (axs : axes) (i : nat) : act nat :=
  match axs with
  | OneAxes => araise (Raised (NoAttribute "flatten"))
  | AxesArray n => if i <? n then areturn i else araise IndexError
  end.

(** ** emperical_distribution *)

(** An entry of the returned array, [weight * count]: the count [num] and
    the number of data [den], of which [weight] is the inverse.  numpy
    multiplies in floating point; the rounding of the product is not
    modelled. *)
Record fraction : Type := mkFraction { num : nat; den : nat }.

(** [np.array(x >= datum)] added to [count]. *)
Definition add_indicator (datum : Z) (x : list Z) (count : list nat)
    : list nat :=
  map (fun p => fst p + (if Z.leb datum (snd p) then 1 else 0))
    (combine count x).

(** For arrays of integers; [1.0 / len(data)] raises on no data. *)
Definition emperical_distribution (x data : list Z) : pyexn + list fraction :=
  match List.length data with
  | 0 => inl ZeroDivisionError
  | S _ =>
      let count :=
        fold_left (fun count datum => add_indicator datum x count) data
          (repeat 0 (List.length x)) in
      inr (map (fun c => mkFraction c (List.length data)) count)
  end.

(** The data at or below [v]. *)
Definition at_or_below (v : Z) (data : list Z) : nat :=
  List.length (filter (fun d => Z.leb d v) data).

(** ** plot_residual and plot_many_residuals *)

(** The size of [df[key]] as an array: its rows, times its columns when
    the label is repeated and the item a sub-frame. *)
Definition item_size (df : DataFrame) (x : item) : nat :=
  match x with
  | ItemSeries _ => df_len df
  | ItemFrame cols => df_len df * List.length cols
  end.

(** [ax.scatter(x, ys)] refuses arrays of different sizes. *)
Definition ax_scatter (ax : nat) (x : string) (x_size y_size : nat)
    (ys : ydata) (color : option string) : act unit :=
  if x_size =? y_size then acall (AxScatter ax x ys color)
  else araise SizeMismatch.

(** [y] and [y_hat] enter through [residuals], what
    [np.abs(y.astype(int) - y_hat)] gives for them: an exception (a [y]
    without [astype], sizes that do not broadcast) or an array of that
    many residuals.  [x] is [df_X[name]], of [x_size] values. *)
Definition plot_residual (ax : nat) (name : string) (x_size : nat)
    (residuals : computed nat) : act unit :=
  residuals <~ of_result (outcome residuals) ;;
  acall (AxHline ax) ;;;
  ax_scatter ax name x_size residuals Residuals (Some "grey") ;;;
  draw (AxSetYlabel ax "Residuals ($y - \hat y$)").

(** [plt.subplots(len(df_X))] makes one row of axes per row of the frame,
    and [zip(axs, df_X)] pairs them with the column labels. *)
Definition plot_many_residuals (df_X : DataFrame) (residuals : computed nat)
    : act axes :=
  axs <~ plt_subplots (df_len df_X) ;;
  pairs <~ zip_axes axs (labels df_X) ;;
  afor_each pairs
    (fun '(ax, name) =>
       x <~ of_result (df_getitem df_X (PyStr name)) ;;
       plot_residual ax name (item_size df_X x) residuals ;;;
       draw (AxSetXlabel ax name) ;;;
       draw (AxSetTitle ax ("Model Residuals by " ++ name)%string)) ;;;
  areturn axs.

(** ** plot_predicted_vs_actuals and plot_many_predicteds_vs_actuals *)

(** [d.columns[0]] *)
Definition first_column (d : DataFrame) : act string :=
  match labels d with
  | [] => araise IndexError
  | c :: _ => areturn c
  end.

(** [model.predict(X)]: scikit-learn raises on data the model does not
    take (a column of strings, columns other than those it was fitted on),
    and otherwise gives an array of that many predictions. *)
Context (predict : Model -> DataFrame -> computed nat).

(** The arguments of each [ax.scatter] are evaluated before the call:
    [model.predict(X)] after [df[...]] and before the second scatter. *)
Definition plot_predicted_vs_actuals (df : DataFrame) (model : Model)
    (y_var_name : pyval) (sample_limit : nat) : act unit :=
  X <~ of_result (df_drop df y_var_name) ;;
  let name := class_name model in
  plot_sample_df <~ of_result (df_sample df sample_limit) ;;
  draw (Subplots 1 1) ;;;
  dropped <~ of_result (df_drop df y_var_name) ;;
  column <~ first_column dropped ;;
  draw (AxSetTitle 0 (name ++ " Predicteds vs Actuals at " ++ column)%string) ;;;
  dropped <~ of_result (df_drop df y_var_name) ;;
  column <~ first_column dropped ;;
  xs <~ of_result (df_getitem df (PyStr column)) ;;
  ys <~ of_result (df_getitem df y_var_name) ;;
  ax_scatter 0 column (item_size df xs) (item_size df ys)
    (Actuals y_var_name) (Some "grey") ;;;
  dropped <~ of_result (df_drop df y_var_name) ;;
  column <~ first_column dropped ;;
  xs <~ of_result (df_getitem df (PyStr column)) ;;
  y_hat <~ of_result (outcome (predict model X)) ;;
  ax_scatter 0 column (item_size df xs) y_hat Predictions None.

Definition plot_many_predicteds_vs_actuals (df_X : DataFrame)
    (x_var_names : list string) : act axes :=
  let num_plot_rows := ceil_half (List.length x_var_names) in
  axs <~ plt_subplots_grid num_plot_rows 2 ;;
  pairs <~ zip_axes axs x_var_names ;;
  afor_each pairs
    (fun '(ax, name) =>
       x <~ of_result (df_getitem df_X (PyStr name)) ;;
       acall (PredictedsVsActuals ax name) ;;;
       draw (AxSetTitle ax (name ++ " Predicteds vs. Actuals")%string)) ;;;
  areturn axs.

(** ** simple_spline_specification *)

Inductive transformer : Type :=
| ColumnSelector (name : string)
| NaturalCubicSpline (knots : nat).

(** The steps handed to [Pipeline]. *)
Definition simple_spline_specification (name : string) (knots : nat)
    : list (string * transformer) :=
  let select_name := (name ++ "_select")%string in
  let spline_name := (name ++ "_spline")%string in
  [(select_name, ColumnSelector name);
   (spline_name, NaturalCubicSpline knots)].

(** ** plot_solution_paths *)

(** [np.concatenate] of the rows [coef_.reshape(1, -1)]: the matrix, when
    there is a row and all rows are as long as the first. *)
Definition np_concatenate (rows : list (list cell)) : act (list (list cell) * nat) :=
  match rows with
  | [] => araise NothingToConcatenate
  | r :: _ =>
      if forallb (fun r' => List.length r' =? List.length r) rows
      then areturn (rows, List.length r)
      else araise DimensionMismatch
  end.

(** A regression is read through its [coef_]; [alpha] gives the abscissa,
    in floating point. *)
Definition plot_solution_paths (ax : nat) (regressions : list (list cell))
    : act unit :=
  coeffs <~ np_concatenate regressions ;;
  afor_each (seq 0 (snd coeffs))
    (fun idx => acall (CoefficientPath ax idx (List.length (fst coeffs)))) ;;;
  draw (AxSetXlabel ax "$\log_{10}(\alpha)$") ;;;
  draw (AxSetYlabel ax "Estimated Coefficient") ;;;
  draw (AxSetTitle ax "Coefficient Paths").

(** ** gal_display_coef *)

(** [format(s, '<w')]: left-justified in a field of [w], never cut. *)
Definition ljust (w : nat) (s : string) : string :=
  (s ++ string_of_list_ascii (repeat " "%char (w - String.length s)))%string.

(** ["{:<35}{:<20}".format(a, b)] *)
Definition table_row (a b : string) : string :=
  (ljust 35 a ++ ljust 20 b)%string.

(** A coefficient as [format] takes it: a number, of which [format] makes
    the text, or a value that has no format under a width (an array, as
    each row of a two-dimensional [coef_] is; [None]). *)
Inductive coef : Type :=
| Scalar (text : string)
| NotScalar.

(** ["{:<35}{:<20}".format(name, coef)] *)
Definition format_row (name : string) (c : coef) : result string :=
  match c with
  | Scalar text => inr (table_row name text)
  | NotScalar => inl FormatError
  end.

Definition gal_display_coef (coefs : list coef) (coef_names : list string)
    : io unit :=
  emit (PyPrint (table_row "Name" "Parameter Estimate")) ;;
  emit (PyPrint (string_of_list_ascii (repeat "-"%char (35 + 20)))) ;;
  for_each (combine coefs coef_names)
    (fun '(coef, name) =>
       row <- lift (format_row name coef) ;;
       emit (PyPrint row)).

(** The lines a run printed. *)
Definition printed (tr : list event) : list string :=
  flat_map (fun e => match e with
                     | PyPrint text => [text]
                     | _ => []
                     end) tr.

(** ** shaped_plot_partial_dependences and plot_partial_dependences *)

Definition shaped_plot_partial_dependences (model : Model) (df : DataFrame)
    (y_var_name : pyval) : act unit :=
  let X_features := labels df in
  X_features <~ (if py_in y_var_name X_features
                 then areturn (list_remove y_var_name X_features)
                 else araise NotInList) ;;
  if 1 <? List.length X_features then
    let num_plot_rows := ceil_half (List.length X_features) in
    axs <~ plt_subplots_grid num_plot_rows 2 ;;
    afor_each (enumerate X_features)
      (fun '(i, X_feature) =>
         ax <~ flatten_at axs i ;;
         X <~ of_result (df_drop df y_var_name) ;;
         y <~ of_result (df_getitem df y_var_name) ;;
         acall (PartialDependence ax model X_feature None) ;;;
         ax <~ flatten_at axs i ;;
         draw (AxSetTitle ax
                 (X_feature ++ ": Partial Dependence Plot "
                  ++ class_name model)%string))
  else if List.length X_features =? 1 then
    draw (Subplots (List.length X_features) 1) ;;;
    afor_each (enumerate X_features)
      (fun '(i, X_feature) =>
         X <~ of_result (df_drop df y_var_name) ;;
         y <~ of_result (df_getitem df y_var_name) ;;
         acall (PartialDependence 0 model X_feature None) ;;;
         draw (AxSetTitle 0
                 (X_feature ++ ": Partial Dependence Plots "
                  ++ class_name model)%string) ;;;
         araise (Raised (NoAttribute "set_title"))) ;;;
    draw FigTightLayout
  else
    draw (PyPrint "No Features to Plot").

(** [if bootstrap_models:] is false of [None] and of the empty list. *)
Definition bootstrap_curves (ax : nat) (name : string)
    (bootstrap_models : option (list Model)) : act unit :=
  match bootstrap_models with
  | None | Some [] => areturn tt
  | Some models =>
      afor_each (firstn 10 models)
        (fun M => acall (PartialDependence ax M name (Some "lightblue")))
  end.

Definition plot_partial_dependences (model : Model) (var_names : list string)
    (bootstrap_models : option (list Model)) : act axes :=
  axs <~ plt_subplots (List.length var_names) ;;
  pairs <~ zip_axes axs var_names ;;
  afor_each pairs
    (fun '(ax, name) =>
       bootstrap_curves ax name bootstrap_models ;;;
       acall (PartialDependence ax model name (Some "blue")) ;;;
       draw (AxSetTitle ax (name ++ " Partial Dependence")%string)) ;;;
  draw FigTightLayout ;;;
  areturn axs.

(** The partial-dependence curves of a trace: axes, model and variable. *)
Definition curves (tr : list call) : list (nat * Model * string) :=
  flat_map (fun c => match c with
                     | PartialDependence ax model var_name _ =>
                         [(ax, model, var_name)]
                     | _ => []
                     end) tr.

(** The predicted-against-actual plots of a trace: axes and column. *)
Definition comparisons (tr : list call) : list (nat * string) :=
  flat_map (fun c => match c with
                     | PredictedsVsActuals ax x => [(ax, x)]
                     | _ => []
                     end) tr.

(** The columns a trace scattered something against. *)
Definition scattered (tr : list call) : list string :=
  flat_map (fun c => match c with
                     | AxScatter _ x _ _ => [x]
                     | _ => []
                     end) tr.

(** ** Vocabulary of the statements *)

(** The keys of a chunk inside the loop: six features, after the
    dependent variable when its name is truthy. *)
Definition loop_keys (y : pyval) (cf : list string) : list pyval :=
  if truthy y then y :: map PyStr (firstn 6 cf) else map PyStr (firstn 6 cf).

(** Every scatter matrix of a trace is drawn from [n] sampled rows. *)
Definition sampled_at (n : nat) (e : event) : Prop :=
  match e with
  | ScatterMatrix _ rows => rows = n
  | _ => True
  end.

(** A key that names a column of [df]. *)
Definition column_key (df : DataFrame) (k : pyval) : Prop :=
  exists name, k = PyStr name /\ has_column df name = true.

Definition column_names (df : DataFrame) (l : list string) : Prop :=
  Forall (fun f => has_column df f = true) l.

(** The renderer returns on every sample of [n] rows. *)
Definition renderer_returns (n : nat) : Prop :=
  forall columns, scatter_matrix_raises columns n = None.

(** The drawing calls of one [plot_roc]. *)
Definition roc_calls (ax : nat) (label : string) : list event :=
  [AxSetTitle ax "Receiver Operating Characteristic";
   RocCurve ax label;
   AxLegend ax; ChanceLine ax; AxSetXlim ax; AxSetYlim ax;
   AxSetYlabel ax "True Positive Rate";
   AxSetXlabel ax "False Positive Rate"].

(** The calls of the loop of [plot_rocs] over [models], the text of the
    area of each model given by [text]. *)
Definition rocs_calls (text : Model -> string) (models : list Model)
    : list event :=
  flat_map (fun model =>
              if in_dir "predict_proba" model
              then roc_calls 0
                     ("AUC " ++ class_name model ++ " = " ++ text model)%string
              else []) models.

(** [sub] occurs in [s]. *)
Definition occurs_in (sub s : string) : Prop :=
  exists pre post, s = (pre ++ sub ++ post)%string.

(** * Properties *)

(** ** Theorems: sort_features *)

Lemma continuous_not_category (t : np_dtype) :
  is_continuous t = true -> is_category t = false.
Proof. destruct t; simpl; intros H; try discriminate; reflexivity. Qed.

Lemma sort_features_fold (cols : list (string * Series)) (a b : list string) :
  fold_left sort_features_step cols (a, b)
  = (a ++ continuous_labels cols, b ++ category_labels cols).
Proof.
  revert a b. induction cols as [| [f s] cols IH]; intros a b.
  - simpl. now rewrite !app_nil_r.
  - cbn [fold_left].
    assert (E : sort_features_step (a, b) (f, s)
                = (if is_continuous (s_dtype s) then a ++ [f] else a,
                   if is_category (s_dtype s) then b ++ [f] else b))
      by reflexivity.
    rewrite E, IH. unfold continuous_labels, category_labels. simpl.
    destruct (is_continuous (s_dtype s)), (is_category (s_dtype s));
      simpl; rewrite <- ?app_assoc; reflexivity.
Qed.

Lemma sort_features_spec (df : DataFrame) :
  sort_features df
  = (continuous_labels (df_columns df), category_labels (df_columns df)).
Proof. unfold sort_features. now rewrite sort_features_fold. Qed.

Lemma unique_label_series (cols : list (string * Series)) f s s' :
  NoDup (map fst cols) -> In (f, s) cols -> In (f, s') cols -> s = s'.
Proof.
  induction cols as [| [g t] cols IH]; simpl; intros Hnd H1 H2; [contradiction |].
  inversion Hnd as [| ? ? Hnotin Hnd']; subst.
  destruct H1 as [H1 | H1], H2 as [H2 | H2].
  - congruence.
  - inversion H1; subst. exfalso. apply Hnotin.
    change f with (fst (f, s')). now apply in_map.
  - inversion H2; subst. exfalso. apply Hnotin.
    change f with (fst (f, s)). now apply in_map.
  - now apply IH.
Qed.

Lemma in_continuous_labels cols f :
  In f (continuous_labels cols) <->
  exists s, In (f, s) cols /\ is_continuous (s_dtype s) = true.
Proof.
  unfold continuous_labels. rewrite in_map_iff. split.
  - intros [[g s] [Hg Hin]]. simpl in Hg. subst g.
    apply filter_In in Hin. simpl in Hin. now exists s.
  - intros [s [Hin Hc]]. exists (f, s). split; [reflexivity |].
    apply filter_In. now split.
Qed.

Lemma in_category_labels cols f :
  In f (category_labels cols) <->
  exists s, In (f, s) cols /\ is_category (s_dtype s) = true.
Proof.
  unfold category_labels. rewrite in_map_iff. split.
  - intros [[g s] [Hg Hin]]. simpl in Hg. subst g.
    apply filter_In in Hin. simpl in Hin. now exists s.
  - intros [s [Hin Hc]]. exists (f, s). split; [reflexivity |].
    apply filter_In. now split.
Qed.

(** By the five dtypes the code compares with: in a dataframe whose labels
    are unique, a column of dtype [np.dtype('int')] or [np.dtype('float')]
    is in the continuous list and not in the categorical one, a column of
    dtype [np.dtype('O')], [np.dtype('<U')] or [np.dtype('bool')] is in the
    categorical list and not in the continuous one, and a column of any
    other dtype is in neither. *)
Lemma sort_features_classifies (df : DataFrame) (f : string) (s : Series) :
  unique_labels df ->
  In (f, s) (df_columns df) ->
  let continuous := fst (sort_features df) in
  let category := snd (sort_features df) in
  ~ (In f continuous /\ In f category) /\
  (s_dtype s = dtype_int \/ s_dtype s = dtype_float ->
     In f continuous /\ ~ In f category) /\
  (s_dtype s = dtype_O \/ s_dtype s = dtype_U \/ s_dtype s = dtype_bool ->
     In f category /\ ~ In f continuous) /\
  (is_continuous (s_dtype s) = false -> is_category (s_dtype s) = false ->
     ~ In f continuous /\ ~ In f category).
Proof.
  intros Hnd Hin. rewrite sort_features_spec. cbn zeta. simpl fst. simpl snd.
  assert (Hcont : In f (continuous_labels (df_columns df)) ->
                  is_continuous (s_dtype s) = true).
  { intros H. apply in_continuous_labels in H. destruct H as [s' [Hin' Hc]].
    now rewrite (unique_label_series _ _ _ _ Hnd Hin Hin'). }
  assert (Hcat : In f (category_labels (df_columns df)) ->
                 is_category (s_dtype s) = true).
  { intros H. apply in_category_labels in H. destruct H as [s' [Hin' Hc]].
    now rewrite (unique_label_series _ _ _ _ Hnd Hin Hin'). }
  repeat split.
  - intros [H1 H2]. apply Hcont in H1. apply Hcat in H2.
    apply continuous_not_category in H1. congruence.
  - apply in_continuous_labels. exists s. split; [assumption |].
    destruct H as [H | H]; rewrite H; reflexivity.
  - intros H2. apply Hcat in H2.
    destruct H as [H | H]; rewrite H in H2; discriminate.
  - apply in_category_labels. exists s. split; [assumption |].
    destruct H as [H | [H | H]]; rewrite H; reflexivity.
  - intros H2. apply Hcont in H2.
    destruct H as [H | [H | H]]; rewrite H in H2; discriminate.
  - intros H2. apply Hcont in H2. congruence.
  - intros H2. apply Hcat in H2. congruence.
Qed.

(** C8. The schema a: float, b: object, c: bool, d: int, whatever the
    columns hold, is classified as continuous = [a, d] and
    categorical = [b, c], both in column order. *)
Theorem sort_features_example (n : nat) (va vb vc vd : list cell) :
  sort_features
    (mkDataFrame n [("a", mkSeries dtype_float va); ("b", mkSeries dtype_O vb);
                    ("c", mkSeries dtype_bool vc); ("d", mkSeries dtype_int vd)])
  = (["a"; "d"], ["b"; "c"]).
Proof. reflexivity. Qed.

(** C3. A dataframe with an int32 column, a float32 column and a float64
    column, whatever they hold: the first two have an integer and a float
    type, and [sort_features] puts neither in its continuous list, which
    holds the float64 column alone; its categorical list is empty.  The
    equality tests of line 31 take the default widths only. *)
Theorem narrower_widths_dropped (n : nat) (va vb vc : list cell) :
  let df := mkDataFrame n
              [("count", mkSeries (dtype_other "int32") va);
               ("price", mkSeries (dtype_other "float32") vb);
               ("total", mkSeries dtype_float vc)] in
  spec_integer_or_float (dtype_other "int32") = true /\
  spec_integer_or_float (dtype_other "float32") = true /\
  sort_features df = (["total"], []) /\
  ~ In "count" (fst (sort_features df)) /\
  ~ In "price" (fst (sort_features df)).
Proof.
  intros df. repeat split; simpl; intuition discriminate.
Qed.

(** ** Theorems: the scatter-matrix chunks *)

(** The loop, one turn at a time. *)
Lemma scatter_loop_turn df y n cf :
  scatter_loop df y n cf =
  if 5 <? List.length cf then
    plot_sample_df <-
      lift (rbind
              (df_getitem_list df
                 (if truthy y then y :: map PyStr (firstn 6 cf)
                  else map PyStr (firstn 6 cf)))
              (fun chunk => df_sample chunk n)) ;;
    plot_one_scatter_matrix plot_sample_df ;;
    emit PltShow ;;
    scatter_loop df y n (skipn 5 cf)
  else ret cf.
Proof.
  simp scatter_loop.
  destruct (lt_dec 5 (List.length cf)) as [Hlt | Hge].
  - simp scatter_loop. apply Nat.ltb_lt in Hlt. rewrite Hlt. reflexivity.
  - simp scatter_loop. apply Nat.ltb_nlt in Hge. now rewrite Hge.
Qed.

(** Selecting columns and sampling them, in one step. *)
Lemma sample_of_selection df keys n :
  rbind (df_getitem_list df keys) (fun chunk => df_sample chunk n)
  = match select_columns df keys with
    | inl e => inl e
    | inr cs =>
        if n <=? df_len df then inr (map fst cs, n)
        else inl SampleLargerThanPopulation
    end.
Proof.
  unfold df_getitem_list, rbind, df_sample.
  destruct (select_columns df keys); reflexivity.
Qed.

Lemma scatter_loop_step df y n cf :
  scatter_loop df y n cf =
  if 5 <? List.length cf then
    match select_columns df (loop_keys y cf) with
    | inl e => ([], inl e)
    | inr cs =>
        if n <=? df_len df
        then match scatter_matrix_raises (map fst cs) n with
             | Some reason =>
                 ([ScatterMatrix (map fst cs) n], inl (LibraryError reason))
             | None =>
                 let (tr, r) := scatter_loop df y n (skipn 5 cf) in
                 (ScatterMatrix (map fst cs) n :: PltShow :: tr, r)
             end
        else ([], inl SampleLargerThanPopulation)
    end
  else ([], inr cf).
Proof.
  rewrite scatter_loop_turn at 1.
  destruct (5 <? List.length cf); [| reflexivity].
  rewrite sample_of_selection. fold (loop_keys y cf).
  destruct (select_columns df (loop_keys y cf)) as [e | cs]; [reflexivity |].
  destruct (n <=? df_len df); [| reflexivity].
  unfold bind, lift, plot_one_scatter_matrix, emit. cbn [fst snd].
  destruct (scatter_matrix_raises (map fst cs) n) as [reason |];
    [reflexivity |].
  destruct (scatter_loop df y n (skipn 5 cf)) as [tr r]. reflexivity.
Qed.

Lemma render_chunks_step df y n cf :
  render_chunks df y n cf =
  match scatter_loop df y n cf with
  | (tr, inl e) => (tr, inl e)
  | (tr, inr rest) =>
      match select_columns df (y :: map PyStr rest) with
      | inl e => (tr, inl e)
      | inr cs =>
          if n <=? df_len df
          then (tr ++ [ScatterMatrix (map fst cs) n],
                match scatter_matrix_raises (map fst cs) n with
                | Some reason => inl (LibraryError reason)
                | None => inr tt
                end)
          else (tr, inl SampleLargerThanPopulation)
      end
  end.
Proof.
  unfold render_chunks. unfold bind at 1.
  destruct (scatter_loop df y n cf) as [tr [e | rest]]; [reflexivity |].
  rewrite sample_of_selection.
  destruct (select_columns df (y :: map PyStr rest)) as [e | cs];
    [simpl; now rewrite app_nil_r |].
  destruct (n <=? df_len df); [| simpl; now rewrite app_nil_r].
  unfold bind, lift, plot_one_scatter_matrix, emit. cbn [fst snd].
  now destruct (scatter_matrix_raises (map fst cs) n).
Qed.

(** Induction on the loop: on the length of the feature list. *)
Lemma features_ind (P : list string -> Prop) :
  (forall cf, (forall cf', List.length cf' < List.length cf -> P cf') -> P cf) ->
  forall cf, P cf.
Proof.
  intros H cf. remember (List.length cf) as m eqn:Hm. revert cf Hm.
  induction m as [m IH] using lt_wf_ind. intros cf Hm. subst m.
  apply H. intros cf' Hlt. now apply (IH (List.length cf')).
Qed.

Lemma select_columns_error df keys e :
  select_columns df keys = inl e -> exists k, e = KeyError k.
Proof.
  revert e. induction keys as [| [| name] keys IH]; simpl; intros e H.
  - discriminate.
  - inversion H. now exists PyNone.
  - destruct (has_column df name).
    + destruct (select_columns df keys) as [e' | cs]; simpl in H.
      * inversion H; subst. now apply IH.
      * discriminate.
    + inversion H. now exists (PyStr name).
Qed.

Lemma sample_limit_of_min df : sample_limit_of df = Nat.min 300 (df_len df).
Proof.
  unfold sample_limit_of. destruct (df_len df <? 300) eqn:E.
  - apply Nat.ltb_lt in E. lia.
  - apply Nat.ltb_ge in E. lia.
Qed.

Lemma scatter_loop_samples df y n cf :
  n <= df_len df ->
  Forall (sampled_at n) (fst (scatter_loop df y n cf)) /\
  snd (scatter_loop df y n cf) <> inl SampleLargerThanPopulation.
Proof.
  intros Hn. induction cf as [cf IH] using features_ind.
  rewrite scatter_loop_step.
  destruct (5 <? List.length cf) eqn:Hlen;
    [| simpl; split; [constructor | discriminate]].
  apply Nat.ltb_lt in Hlen.
  destruct (select_columns df (loop_keys y cf)) as [e | cs] eqn:Hsel.
  - simpl. split; [constructor |].
    destruct (select_columns_error _ _ _ Hsel) as [k ->]. discriminate.
  - apply Nat.leb_le in Hn. rewrite Hn.
    destruct (scatter_matrix_raises (map fst cs) n) as [reason |].
    { simpl. split; [| discriminate]. now repeat constructor. }
    destruct (IH (skipn 5 cf)) as [IH1 IH2]; [rewrite length_skipn; lia |].
    destruct (scatter_loop df y n (skipn 5 cf)) as [tr r]. simpl in *.
    split; [| assumption].
    constructor; [reflexivity |]. constructor; [exact I | assumption].
Qed.

Lemma render_chunks_samples df y n cf :
  n <= df_len df ->
  Forall (sampled_at n) (fst (render_chunks df y n cf)) /\
  snd (render_chunks df y n cf) <> inl SampleLargerThanPopulation.
Proof.
  intros Hn. rewrite render_chunks_step.
  destruct (scatter_loop_samples df y n cf Hn) as [H1 H2].
  destruct (scatter_loop df y n cf) as [tr [e | rest]]; cbn [fst snd] in *.
  { split; [assumption |]. intros H. injection H as ->. now apply H2. }
  destruct (select_columns df (y :: map PyStr rest)) as [e | cs] eqn:Hsel.
  - simpl. split; [assumption |].
    destruct (select_columns_error _ _ _ Hsel) as [k ->]. discriminate.
  - apply Nat.leb_le in Hn. rewrite Hn. simpl. split.
    + apply Forall_app. split; [assumption |]. now constructor.
    + now destruct (scatter_matrix_raises (map fst cs) n).
Qed.

(** C4. The sample size [plot_scatter_matrix] asks for is
    min(300, len(df)): it is never more than the rows of the dataframe,
    every scatter matrix of a run is drawn from that many rows, and no run
    ends in the sample-larger-than-population failure. *)
Theorem sample_size_is_clamped (df : DataFrame) (y_var_name : pyval) :
  sample_limit_of df = Nat.min 300 (df_len df) /\
  sample_limit_of df <= df_len df /\
  Forall (sampled_at (Nat.min 300 (df_len df)))
    (fst (plot_scatter_matrix df y_var_name)) /\
  snd (plot_scatter_matrix df y_var_name) <> inl SampleLargerThanPopulation.
Proof.
  pose proof (sample_limit_of_min df) as Hmin.
  assert (Hle : sample_limit_of df <= df_len df) by lia.
  split; [assumption |]. split; [assumption |].
  rewrite <- Hmin. unfold plot_scatter_matrix, bind, lift.
  destruct (df_drop df y_var_name) as [e | dropped] eqn:Hdrop.
  - simpl. split; [constructor |].
    destruct y_var_name as [| name]; simpl in Hdrop.
    + inversion Hdrop. discriminate.
    + destruct (has_column df name); inversion Hdrop. discriminate.
  - destruct (sort_features dropped) as [continuous category].
    match goal with
    | |- context [render_chunks df y_var_name ?n ?cf] =>
        destruct (render_chunks_samples df y_var_name n cf Hle) as [H1 H2];
        destruct (render_chunks df y_var_name n cf) as [tr r]
    end.
    simpl in *. now split.
Qed.

(** *** How many chunks *)

Lemma ceil_div5_turn (N : nat) :
  5 < N ->
  (if N <=? 5 then 1 else ceil_div5 N)
  = 1 + (if N - 5 <=? 5 then 1 else ceil_div5 (N - 5)).
Proof.
  intros H. unfold ceil_div5.
  destruct (N <=? 5) eqn:E1; [apply Nat.leb_le in E1; lia |].
  replace (N + 4) with (N - 5 + 4 + 1 * 5) by lia.
  rewrite Nat.div_add by lia.
  destruct (N - 5 <=? 5) eqn:E2; [| lia].
  apply Nat.leb_le in E2.
  assert (Hsmall : (N - 5 + 4) / 5 = 0 \/ (N - 5 + 4) / 5 = 1).
  { assert (Hlt : (N - 5 + 4) / 5 < 2) by (apply Nat.Div0.div_lt_upper_bound; lia).
    lia. }
  assert (Hpos : 1 <= (N - 5 + 4) / 5).
  { apply Nat.div_le_lower_bound; lia. }
  lia.
Qed.

Lemma Forall_slices {A : Type} (P : A -> Prop) (k : nat) (l : list A) :
  Forall P l -> Forall P (firstn k l) /\ Forall P (skipn k l).
Proof.
  intros H. rewrite <- (firstn_skipn k l) in H. now apply Forall_app in H.
Qed.

Lemma select_columns_ok df keys :
  Forall (column_key df) keys -> exists cs, select_columns df keys = inr cs.
Proof.
  induction 1 as [| k keys [name [-> Hcol]] _ [cs IH]]; simpl.
  - now exists [].
  - rewrite Hcol, IH. simpl. eauto.
Qed.

Lemma column_keys_of_names df l :
  column_names df l -> Forall (column_key df) (map PyStr l).
Proof.
  intros H. apply Forall_map. eapply Forall_impl; [| exact H].
  intros f Hf. now exists f.
Qed.

Lemma loop_keys_ok df y cf :
  column_key df y -> column_names df cf ->
  Forall (column_key df) (loop_keys y cf).
Proof.
  intros Hy Hcf. unfold loop_keys.
  assert (H6 : Forall (column_key df) (map PyStr (firstn 6 cf))).
  { apply column_keys_of_names. now apply Forall_slices. }
  destruct (truthy y); [now constructor | assumption].
Qed.

Lemma chunks_app tr1 tr2 : chunks (tr1 ++ tr2) = chunks tr1 ++ chunks tr2.
Proof. unfold chunks. apply flat_map_app. Qed.

Lemma scatter_loop_count df y n cf :
  column_key df y -> column_names df cf -> n <= df_len df ->
  renderer_returns n ->
  exists tr rest,
    scatter_loop df y n cf = (tr, inr rest) /\
    column_names df rest /\
    List.length (chunks tr) + 1
    = if List.length cf <=? 5 then 1 else ceil_div5 (List.length cf).
Proof.
  intros Hy Hcf Hn Hret. induction cf as [cf IH] using features_ind.
  rewrite scatter_loop_step.
  destruct (5 <? List.length cf) eqn:Hlen.
  - apply Nat.ltb_lt in Hlen.
    destruct (select_columns_ok df (loop_keys y cf)) as [cs ->];
      [now apply loop_keys_ok |].
    apply Nat.leb_le in Hn. rewrite Hn, Hret.
    destruct (IH (skipn 5 cf)) as [tr [rest [Heq [Hrest Hcount]]]];
      [rewrite length_skipn; lia | now apply Forall_slices |].
    rewrite Heq. exists (ScatterMatrix (map fst cs) n :: PltShow :: tr), rest.
    split; [reflexivity |]. split; [assumption |].
    rewrite ceil_div5_turn by assumption.
    rewrite length_skipn in Hcount. simpl. lia.
  - apply Nat.ltb_ge in Hlen. exists [], cf.
    split; [reflexivity |]. split; [assumption |].
    apply Nat.leb_le in Hlen. now rewrite Hlen.
Qed.

Lemma render_chunks_count (df : DataFrame) (y_var_name : pyval) (sample_limit : nat)
    (continuous_features : list string) :
  column_key df y_var_name ->
  column_names df continuous_features ->
  sample_limit <= df_len df ->
  renderer_returns sample_limit ->
  exists tr,
    render_chunks df y_var_name sample_limit continuous_features = (tr, inr tt) /\
    List.length (chunks tr)
    = if List.length continuous_features <=? 5 then 1
      else ceil_div5 (List.length continuous_features).
Proof.
  intros Hy Hcf Hn Hret. rewrite render_chunks_step.
  destruct (scatter_loop_count df y_var_name sample_limit continuous_features
              Hy Hcf Hn Hret) as [tr [rest [-> [Hrest Hcount]]]].
  destruct (select_columns_ok df (y_var_name :: map PyStr rest)) as [cs ->].
  { constructor; [assumption | now apply column_keys_of_names]. }
  apply Nat.leb_le in Hn. rewrite Hn, Hret.
  eexists. split; [reflexivity |].
  rewrite chunks_app, length_app. simpl. exact Hcount.
Qed.

(** The same count for the whole function: with [y_var_name] a column of
    the dataframe, N is the number of continuous columns beside it. *)
Lemma has_column_in df f : has_column df f = true <-> In f (labels df).
Proof.
  unfold has_column. rewrite existsb_exists. split.
  - intros [x [Hin Heq]]. apply String.eqb_eq in Heq. now subst.
  - intros Hin. exists f. split; [assumption | apply String.eqb_refl].
Qed.

Lemma continuous_after_drop df name :
  let rest := filter (fun c => negb (String.eqb (fst c) name)) (df_columns df) in
  column_names df (continuous_labels rest) /\
  py_in (PyStr name) (continuous_labels rest) = false.
Proof.
  intros rest. split.
  - apply Forall_forall. intros f Hf. apply has_column_in.
    apply in_continuous_labels in Hf. destruct Hf as [s [Hin _]].
    apply filter_In in Hin. destruct Hin as [Hin _].
    unfold labels. change f with (fst (f, s)). now apply in_map.
  - simpl. apply not_true_is_false. intros H.
    apply existsb_exists in H. destruct H as [x [Hin Heq]].
    apply String.eqb_eq in Heq. subst x.
    apply in_continuous_labels in Hin. destruct Hin as [s [Hin _]].
    apply filter_In in Hin. destruct Hin as [_ Hneq]. simpl in Hneq.
    now rewrite String.eqb_refl in Hneq.
Qed.

Lemma plot_scatter_matrix_count (df : DataFrame) (name : string) :
  has_column df name = true ->
  renderer_returns (sample_limit_of df) ->
  let N := List.length
             (continuous_labels
                (filter (fun c => negb (String.eqb (fst c) name))
                   (df_columns df))) in
  exists tr,
    plot_scatter_matrix df (PyStr name) = (tr, inr tt) /\
    List.length (chunks tr) = if N <=? 5 then 1 else ceil_div5 N.
Proof.
  intros Hcol Hret N. unfold plot_scatter_matrix, df_drop. rewrite Hcol.
  unfold bind at 1, lift. rewrite sort_features_spec. cbn [df_columns].
  destruct (continuous_after_drop df name) as [Hnames Hnotin].
  rewrite Hnotin.
  match goal with
  | |- context [render_chunks df (PyStr name) ?n ?cf] =>
      destruct (render_chunks_count df (PyStr name) n cf) as [tr [Heq Hcount]]
  end.
  - now exists name.
  - destruct (truthy (PyStr name)); assumption.
  - rewrite sample_limit_of_min. lia.
  - assumption.
  - exists tr. split.
    + destruct (truthy (PyStr name)); rewrite Heq; now rewrite app_nil_l.
    + destruct (truthy (PyStr name)); exact Hcount.
Qed.

(** Whatever happens in a run, it hands over no more chunks than that. *)
Lemma scatter_loop_at_most df y n cf :
  List.length (chunks (fst (scatter_loop df y n cf))) + 1
  <= if List.length cf <=? 5 then 1 else ceil_div5 (List.length cf).
Proof.
  induction cf as [cf IH] using features_ind.
  rewrite scatter_loop_step.
  destruct (5 <? List.length cf) eqn:Hlen.
  - apply Nat.ltb_lt in Hlen. rewrite ceil_div5_turn by assumption.
    specialize (IH (skipn 5 cf)). rewrite length_skipn in IH.
    assert (Hpos : 1 <= if List.length cf - 5 <=? 5 then 1
                        else ceil_div5 (List.length cf - 5)).
    { destruct (List.length cf - 5 <=? 5) eqn:E; [lia |].
      apply Nat.leb_gt in E. unfold ceil_div5.
      apply Nat.div_le_lower_bound; lia. }
    destruct (select_columns df (loop_keys y cf)) as [e | cs]; [simpl; lia |].
    destruct (n <=? df_len df); [| simpl; lia].
    destruct (scatter_matrix_raises (map fst cs) n); [simpl; lia |].
    destruct (scatter_loop df y n (skipn 5 cf)) as [tr r].
    cbn [fst] in *. cbn [chunks flat_map app List.length]. fold (chunks tr).
    assert (List.length cf - 5 < List.length cf) as Hlt by lia.
    specialize (IH Hlt). lia.
  - apply Nat.ltb_ge in Hlen. apply Nat.leb_le in Hlen. rewrite Hlen.
    simpl. lia.
Qed.

Lemma render_chunks_at_most df y n cf :
  List.length (chunks (fst (render_chunks df y n cf)))
  <= if List.length cf <=? 5 then 1 else ceil_div5 (List.length cf).
Proof.
  rewrite render_chunks_step.
  pose proof (scatter_loop_at_most df y n cf) as Hloop.
  destruct (scatter_loop df y n cf) as [tr [e | rest]]; cbn [fst] in *; [lia |].
  destruct (select_columns df (y :: map PyStr rest)) as [e | cs];
    cbn [fst]; [lia |].
  destruct (n <=? df_len df); cbn [fst]; [| lia].
  rewrite chunks_app, length_app. simpl. lia.
Qed.

(** C2. For every list of N feature names of the dataframe, with the
    dependent variable one of its columns and a renderer that returns on
    the samples, the chunk planner runs to its end and renders ceil(N / 5)
    chunks, and one chunk when N <= 5; so does [plot_scatter_matrix], N
    being the continuous columns beside the dependent variable.  In every
    run, also one that raises, no more chunks than that are handed to the
    renderer. *)
Theorem chunk_count (df : DataFrame) :
  (forall y_var_name sample_limit continuous_features,
     column_key df y_var_name ->
     column_names df continuous_features ->
     sample_limit <= df_len df ->
     renderer_returns sample_limit ->
     exists tr,
       render_chunks df y_var_name sample_limit continuous_features
       = (tr, inr tt) /\
       List.length (chunks tr)
       = if List.length continuous_features <=? 5 then 1
         else ceil_div5 (List.length continuous_features)) /\
  (forall name,
     has_column df name = true ->
     renderer_returns (sample_limit_of df) ->
     let N := List.length
                (continuous_labels
                   (filter (fun c => negb (String.eqb (fst c) name))
                      (df_columns df))) in
     exists tr,
       plot_scatter_matrix df (PyStr name) = (tr, inr tt) /\
       List.length (chunks tr) = if N <=? 5 then 1 else ceil_div5 N) /\
  (forall y_var_name sample_limit continuous_features,
     List.length
       (chunks (fst (render_chunks df y_var_name sample_limit
                       continuous_features)))
     <= if List.length continuous_features <=? 5 then 1
        else ceil_div5 (List.length continuous_features)).
Proof.
  split; [| split].
  - intros y n cf. apply render_chunks_count.
  - intros name. apply plot_scatter_matrix_count.
  - intros y n cf. apply render_chunks_at_most.
Qed.

(** C1. A dataframe of the dependent variable y and six float columns,
    whatever they hold: the first chunk handed to the renderer takes six
    features, f1 to f6, more than five.  When the renderer returns on it,
    the chunk after it starts again at f6, and the chunks' features, the
    dependent variable left out, concatenate to f1 ... f6, f6 and not to
    the feature list; when the renderer returns on that chunk too, the run
    completes with these two chunks. *)
Theorem six_features_overlap (values : string -> list cell) :
  let features := ["f1"; "f2"; "f3"; "f4"; "f5"; "f6"] in
  let df := mkDataFrame 3
              (map (fun name => (name, mkSeries dtype_float (values name)))
                 ("y" :: features)) in
  let run := plot_scatter_matrix df (PyStr "y") in
  (exists rest, fst run = ScatterMatrix ("y" :: features) 3 :: rest) /\
  Exists (fun chunk => 5 < List.length (tl chunk)) (chunks (fst run)) /\
  (scatter_matrix_raises ("y" :: features) 3 = None ->
   fst run = [ScatterMatrix ("y" :: features) 3;
              PltShow;
              ScatterMatrix ["y"; "f6"] 3] /\
   concat (map (@tl string) (chunks (fst run))) = features ++ ["f6"] /\
   concat (map (@tl string) (chunks (fst run))) <> features /\
   (scatter_matrix_raises ["y"; "f6"] 3 = None -> snd run = inr tt)).
Proof.
  intros features df run.
  assert (Hrun :
    run = match scatter_matrix_raises ("y" :: features) 3 with
          | Some reason =>
              ([ScatterMatrix ("y" :: features) 3], inl (LibraryError reason))
          | None =>
              ([ScatterMatrix ("y" :: features) 3; PltShow;
                ScatterMatrix ["y"; "f6"] 3],
               match scatter_matrix_raises ["y"; "f6"] 3 with
               | Some reason => inl (LibraryError reason)
               | None => inr tt
               end)
          end).
  { subst run. unfold plot_scatter_matrix.
    change (df_drop df (PyStr "y"))
      with (@inr exn _ (mkDataFrame 3
              (map (fun name => (name, mkSeries dtype_float (values name)))
                 features))).
    unfold bind at 1, lift.
    change (sort_features
              (mkDataFrame 3
                 (map (fun name => (name, mkSeries dtype_float (values name)))
                    features)))
      with (features, @nil string).
    change (sample_limit_of df) with 3. cbv iota beta.
    change (if truthy (PyStr "y")
            then if py_in (PyStr "y") features
                 then list_remove (PyStr "y") features
                 else features
            else features) with features.
    assert (Hsame : forall m : io unit,
              (let (tr', r) := m in ([] ++ tr', r)) = m)
      by (intros [tr' r]; reflexivity).
    rewrite Hsame.
    rewrite render_chunks_step, scatter_loop_step.
    change (5 <? List.length features) with true. cbv iota.
    change (select_columns df (loop_keys (PyStr "y") features))
      with (@inr exn _
              (map (fun name => (name, mkSeries dtype_float (values name)))
                 ("y" :: features))).
    cbv iota beta. change (3 <=? df_len df) with true. cbv iota.
    change (map fst
              (map (fun name => (name, mkSeries dtype_float (values name)))
                 ("y" :: features)))
      with ("y" :: features).
    destruct (scatter_matrix_raises ("y" :: features) 3) as [reason |];
      [reflexivity |].
    rewrite scatter_loop_step. reflexivity. }
  rewrite Hrun.
  destruct (scatter_matrix_raises ("y" :: features) 3) as [reason |].
  - split; [now exists [] |]. split; [| discriminate].
    apply Exists_cons_hd. simpl. lia.
  - split; [eexists; reflexivity |]. split.
    + apply Exists_cons_hd. simpl. lia.
    + intros _. split; [reflexivity |]. split; [reflexivity |].
      split; [discriminate |]. intros ->. reflexivity.
Qed.

(** C9. With no dependent-variable name, that is [None], the function
    raises at its first statement and renders nothing; and the chunk
    planner on its own, whatever the features, ends in an exception,
    because the statement after the loop selects [None] as a column. *)
Theorem no_name_raises (df : DataFrame) :
  plot_scatter_matrix df PyNone = ([], inl DropWithoutLabels) /\
  forall n cf, exists tr e, render_chunks df PyNone n cf = (tr, inl e).
Proof.
  split; [reflexivity |]. intros n cf. rewrite render_chunks_step.
  destruct (scatter_loop df PyNone n cf) as [tr [e | rest]]; simpl; eauto.
Qed.

(** ** Theorems: plot_feature_importances *)

Lemma string_app_assoc (a b c : string) :
  ((a ++ b) ++ c = a ++ (b ++ c))%string.
Proof. induction a as [| ch a IH]; simpl; [reflexivity | now rewrite IH]. Qed.

(** C5. For a model without [feature_importances_] in its [dir],
    [plot_feature_importances] raises the module's own [ValueError] before
    any drawing call; its message holds the text of the model and the name
    of the missing attribute. *)
Theorem missing_importances_raise (model : Model) (df_X : DataFrame) :
  in_dir "feature_importances_" model = false ->
  plot_feature_importances model df_X
  = ([], inl (ValueError (no_importances_message model))) /\
  occurs_in (model_str model) (no_importances_message model) /\
  occurs_in "feature_importances_" (no_importances_message model).
Proof.
  intros Hdir. unfold plot_feature_importances. rewrite Hdir.
  split; [reflexivity |]. unfold no_importances_message, occurs_in. split.
  - exists "Model: "%string.
    exists " doesn't have feature_importances_, unable to plot"%string.
    reflexivity.
  - exists ("Model: " ++ model_str model ++ " doesn't have ")%string.
    exists ", unable to plot"%string.
    rewrite !string_app_assoc. reflexivity.
Qed.

(** ** Theorems: plot_rocs *)

Lemma plot_roc_trace ax model X y text :
  auc_text model X y = Returns text ->
  plot_roc ax model X y None
  = (roc_calls ax ("AUC " ++ class_name model ++ " = " ++ text)%string,
     inr tt).
Proof.
  intros H. unfold plot_roc, pipeline_transform. unfold bind at 1, lift.
  now rewrite H.
Qed.

Lemma plot_roc_fails ax model X y reason :
  auc_text model X y = Fails reason ->
  plot_roc ax model X y None = ([], inl (LibraryError reason)).
Proof.
  intros H. unfold plot_roc, pipeline_transform. unfold bind at 1, lift.
  now rewrite H.
Qed.


(** The loop over models whose areas are all computed. *)
Lemma rocs_loop models X y (text : Model -> string) :
  (forall model, In model models -> in_dir "predict_proba" model = true ->
     auc_text model X y = Returns (text model)) ->
  for_each models
    (fun model =>
       if in_dir "predict_proba" model then plot_roc 0 model X y None
       else ret tt)
  = (rocs_calls text models, inr tt).
Proof.
  induction models as [| model models IH]; intros Hall; [reflexivity |].
  cbn [for_each]. unfold rocs_calls. cbn [flat_map]. fold (rocs_calls text models).
  rewrite IH by (intros m Hm; apply Hall; now right).
  destruct (in_dir "predict_proba" model) eqn:Hdir; [| reflexivity].
  rewrite (plot_roc_trace 0 model X y (text model))
    by (apply Hall; [now left | assumption]).
  reflexivity.
Qed.

(** The loop stops at the first model whose area is not computed. *)
Lemma rocs_loop_fails good bad rest X y (text : Model -> string) reason :
  (forall model, In model good -> in_dir "predict_proba" model = true ->
     auc_text model X y = Returns (text model)) ->
  in_dir "predict_proba" bad = true ->
  auc_text bad X y = Fails reason ->
  for_each (good ++ bad :: rest)
    (fun model =>
       if in_dir "predict_proba" model then plot_roc 0 model X y None
       else ret tt)
  = (rocs_calls text good, inl (LibraryError reason)).
Proof.
  intros Hall Hdir Hfail. induction good as [| model good IH].
  - cbn [app for_each]. rewrite Hdir, (plot_roc_fails 0 bad X y reason Hfail).
    reflexivity.
  - cbn [app for_each]. unfold rocs_calls. cbn [flat_map].
    fold (rocs_calls text good).
    rewrite IH by (intros m Hm; apply Hall; now right).
    destruct (in_dir "predict_proba" model) eqn:Hm; [| reflexivity].
    rewrite (plot_roc_trace 0 model X y (text model))
      by (apply Hall; [now left | assumption]).
    reflexivity.
Qed.




(** ** Theorems: plot_many_univariates *)

Lemma filter_label_absent (cols : list (string * Series)) f :
  ~ In f (map fst cols) ->
  filter (fun c => String.eqb (fst c) f) cols = [].
Proof.
  induction cols as [| [g t] cols IH]; simpl; intros Hnot; [reflexivity |].
  destruct (String.eqb_spec g f) as [-> | Hneq].
  - exfalso. apply Hnot. now left.
  - apply IH. intros Hin. apply Hnot. now right.
Qed.

Lemma filter_label_unique (cols : list (string * Series)) f s :
  NoDup (map fst cols) -> In (f, s) cols ->
  filter (fun c => String.eqb (fst c) f) cols = [(f, s)].
Proof.
  induction cols as [| [g t] cols IH]; simpl; intros Hnd Hin; [contradiction |].
  inversion Hnd as [| ? ? Hnotin Hnd']; subst.
  destruct Hin as [Heq | Hin].
  - inversion Heq; subst. rewrite String.eqb_refl.
    now rewrite filter_label_absent.
  - destruct (String.eqb_spec g f) as [-> | Hneq].
    + exfalso. apply Hnotin. change f with (fst (f, s)). now apply in_map.
    + now apply IH.
Qed.

Lemma df_getitem_unique df f s :
  unique_labels df -> In (f, s) (df_columns df) ->
  df_getitem df (PyStr f) = inr (ItemSeries s).
Proof.
  intros Hnd Hin. unfold df_getitem, columns_named.
  now rewrite (filter_label_unique _ _ _ Hnd Hin).
Qed.

Lemma len_unique_of_column df f s :
  unique_labels df -> In (f, s) (df_columns df) ->
  len_unique df f = inr (List.length (nodup cell_eq_dec (s_values s))).
Proof.
  intros Hnd Hin. unfold len_unique.
  now rewrite (df_getitem_unique _ _ _ Hnd Hin).
Qed.

(** The filter of line 207 keeps the labels of the eligible columns. *)
Lemma greater_two_filter df (cols : list (string * Series)) :
  unique_labels df -> incl cols (df_columns df) ->
  filter_raising
    (fun x => rbind (len_unique df x) (fun n => inr (2 <? n)))
    (continuous_labels cols)
  = inr (map fst (filter (fun c => eligible (snd c)) cols)).
Proof.
  intros Hnd. induction cols as [| [f s] cols IH]; intros Hincl;
    [reflexivity |].
  assert (Hin : In (f, s) (df_columns df)) by (apply Hincl; now left).
  assert (Hrest : incl cols (df_columns df)).
  { intros c Hc. apply Hincl. now right. }
  unfold continuous_labels in *. cbn [filter snd]. unfold eligible at 1.
  destruct (is_continuous (s_dtype s)); cbn [andb map fst filter_raising].
  - rewrite (len_unique_of_column _ _ _ Hnd Hin), (IH Hrest). cbn [rbind].
    destruct (2 <? List.length (nodup cell_eq_dec (s_values s))); reflexivity.
  - exact (IH Hrest).
Qed.






Lemma eligible_labels_in (cols : list (string * Series)) (x : string) :
  In x (map fst (filter (fun c => eligible (snd c)) cols)) <->
  exists s, In (x, s) cols /\ eligible s = true.
Proof.
  rewrite in_map_iff. split.
  - intros [[g s] [Hg Hin]]. simpl in Hg. subst g.
    apply filter_In in Hin. now exists s.
  - intros [s [Hin He]]. exists (x, s). split; [reflexivity |].
    apply filter_In. now split.
Qed.

Lemma no_eligible_labels (cols : list (string * Series)) :
  map fst (filter (fun c => eligible (snd c)) cols) = [] <->
  (forall x s, In (x, s) cols -> eligible s = false).
Proof.
  split.
  - intros Hnil x s Hin. apply not_true_is_false. intros He.
    assert (H : In x (map fst (filter (fun c => eligible (snd c)) cols)))
      by (apply eligible_labels_in; eauto).
    now rewrite Hnil in H.
  - intros Hnone.
    destruct (map fst (filter (fun c => eligible (snd c)) cols))
      as [| x l] eqn:E; [reflexivity |].
    assert (H : In x (map fst (filter (fun c => eligible (snd c)) cols)))
      by (rewrite E; now left).
    apply eligible_labels_in in H. destruct H as [s [Hin He]].
    rewrite (Hnone x s Hin) in He. discriminate.
Qed.


(** C7. With unique labels and no eligible column (none continuous with
    more than two distinct values), [plot_many_univariates] only prints its
    message: it raises nothing and creates no figure. *)
Theorem no_eligible_features_print (df : DataFrame) (y_var_name : pyval) :
  unique_labels df ->
  (forall x s, In (x, s) (df_columns df) -> eligible s = false) ->
  plot_many_univariates df y_var_name
  = ([PyPrint "No Continous Features to Plot"], inr tt) /\
  figures (fst (plot_many_univariates df y_var_name)) = [].
Proof.
  intros Hnd Hnone. apply no_eligible_labels in Hnone.
  assert (Hrun : plot_many_univariates df y_var_name
                 = ([PyPrint "No Continous Features to Plot"], inr tt)).
  { unfold plot_many_univariates. rewrite sort_features_spec.
    rewrite (greater_two_filter df (df_columns df) Hnd (incl_refl _)).
    rewrite Hnone. reflexivity. }
  rewrite Hrun. split; reflexivity.
Qed.



(** ** Vocabulary of the further statements *)

(** The trace of chunks that were shown: each is rendered from [n] rows
    and followed by [plt.show()]. *)
Definition shown (cs : list (list string)) (n : nat) : list event :=
  flat_map (fun c => [ScatterMatrix c n; PltShow]) cs.

(** The chunk of turn [i] of the loop, and the chunk after [k] turns. *)
Definition loop_chunk (name : string) (cf : list string) (i : nat)
    : list string :=
  name :: firstn 6 (skipn (5 * i) cf).

Definition last_chunk (name : string) (cf : list string) (k : nat)
    : list string :=
  name :: skipn (5 * k) cf.



(** The models [if bootstrap_models:] lets through. *)
Definition bootstrap_list (bootstrap_models : option (list Model)) : list Model :=
  match bootstrap_models with
  | None => []
  | Some models => models
  end.

(** The curves drawn on one axes: the bootstrap models, ten at most, then
    the model. *)
Definition curves_on (model : Model) (bootstrap_models : option (list Model))
    (p : nat * string) : list (nat * Model * string) :=
  map (fun M => (fst p, M, snd p)) (firstn 10 (bootstrap_list bootstrap_models))
  ++ [(fst p, model, snd p)].

(** The labels [df.drop(name, axis=1)] keeps. *)
Definition other_labels (df : DataFrame) (name : string) : list string :=
  map fst (filter (fun c => negb (String.eqb (fst c) name)) (df_columns df)).

(** * Further properties of the functions above *)

(** ** sort_features, for every dataframe *)

Lemma disjoint_filters_length {A : Type} (p q : A -> bool) (l : list A) :
  (forall x, p x = true -> q x = false) ->
  List.length (filter p l) + List.length (filter q l) <= List.length l.
Proof.
  intros Hpq. induction l as [| x l IH]; simpl; [lia |].
  destruct (p x) eqn:Hp.
  - rewrite (Hpq x Hp). simpl. lia.
  - destruct (q x); simpl; lia.
Qed.

(** X1. For every dataframe, repeated labels or not, [sort_features]
    returns the labels of the int and float columns and the labels of the
    object, string and bool columns, each in column order; no column is
    counted in both, so the two lists together are no longer than the
    columns. *)
Theorem sort_features_in_column_order (df : DataFrame) :
  fst (sort_features df)
  = map fst (filter (fun c => is_continuous (s_dtype (snd c))) (df_columns df)) /\
  snd (sort_features df)
  = map fst (filter (fun c => is_category (s_dtype (snd c))) (df_columns df)) /\
  List.length (fst (sort_features df)) + List.length (snd (sort_features df))
  <= List.length (df_columns df).
Proof.
  rewrite sort_features_spec. cbn [fst snd].
  unfold continuous_labels, category_labels. repeat split.
  rewrite !length_map. apply disjoint_filters_length.
  intros c. apply continuous_not_category.
Qed.

(** ** plot_scatter_matrix: when it completes, and what it shows *)

(** With the dependent variable and the features columns of the
    dataframe, the only exception of a run is the renderer's. *)
Lemma scatter_loop_raises df y n cf tr e :
  column_key df y -> column_names df cf -> n <= df_len df ->
  scatter_loop df y n cf = (tr, inl e) -> exists reason, e = LibraryError reason.
Proof.
  intros Hy Hcf Hn. revert tr. induction cf as [cf IH] using features_ind.
  intros tr. rewrite scatter_loop_step.
  destruct (5 <? List.length cf) eqn:Hlen; [| discriminate].
  apply Nat.ltb_lt in Hlen.
  destruct (select_columns_ok df (loop_keys y cf)) as [cs ->];
    [now apply loop_keys_ok |].
  apply Nat.leb_le in Hn. rewrite Hn.
  destruct (scatter_matrix_raises (map fst cs) n) as [reason |].
  - intros H. inversion H. now exists reason.
  - destruct (scatter_loop df y n (skipn 5 cf)) as [tr' r] eqn:Heq.
    intros H. inversion H; subst.
    apply (IH (skipn 5 cf)) with (tr := tr');
      [rewrite length_skipn; lia | now apply Forall_slices | assumption].
Qed.

Lemma scatter_loop_rest df y n cf tr rest :
  column_names df cf ->
  scatter_loop df y n cf = (tr, inr rest) -> column_names df rest.
Proof.
  revert tr. induction cf as [cf IH] using features_ind.
  intros tr Hcf. rewrite scatter_loop_step.
  destruct (5 <? List.length cf) eqn:Hlen;
    [| intros H; inversion H; now subst].
  apply Nat.ltb_lt in Hlen.
  destruct (select_columns df (loop_keys y cf)) as [e | cs]; [discriminate |].
  destruct (n <=? df_len df); [| discriminate].
  destruct (scatter_matrix_raises (map fst cs) n); [discriminate |].
  destruct (scatter_loop df y n (skipn 5 cf)) as [tr' r] eqn:Heq.
  intros H. inversion H; subst.
  apply (IH (skipn 5 cf)) with (tr := tr');
    [rewrite length_skipn; lia | now apply Forall_slices | assumption].
Qed.

Lemma render_chunks_raises df y n cf tr e :
  column_key df y -> column_names df cf -> n <= df_len df ->
  render_chunks df y n cf = (tr, inl e) -> exists reason, e = LibraryError reason.
Proof.
  intros Hy Hcf Hn. rewrite render_chunks_step.
  destruct (scatter_loop df y n cf) as [tr' [e' | rest]] eqn:Hloop.
  - intros H. inversion H; subst.
    exact (scatter_loop_raises df y n cf tr e Hy Hcf Hn Hloop).
  - pose proof (scatter_loop_rest df y n cf tr' rest Hcf Hloop) as Hrest.
    destruct (select_columns_ok df (y :: map PyStr rest)) as [cs ->].
    { constructor; [assumption | now apply column_keys_of_names]. }
    apply Nat.leb_le in Hn. rewrite Hn.
    destruct (scatter_matrix_raises (map fst cs) n) as [reason |];
      [| discriminate].
    intros H. inversion H. now exists reason.
Qed.

(** X2. [plot_scatter_matrix] runs to its end only when [y_var_name] is
    the label of a column, and then it does whenever the renderer returns
    on the samples: the exception of a run with such a label is the
    renderer's.  With any other [y_var_name] the run raises before
    anything is rendered. *)
Theorem scatter_matrix_completes_iff (df : DataFrame) (y_var_name : pyval) :
  ((exists tr, plot_scatter_matrix df y_var_name = (tr, inr tt)) ->
   column_key df y_var_name) /\
  (column_key df y_var_name ->
   renderer_returns (sample_limit_of df) ->
   exists tr, plot_scatter_matrix df y_var_name = (tr, inr tt)) /\
  (column_key df y_var_name ->
   forall tr e, plot_scatter_matrix df y_var_name = (tr, inl e) ->
     exists reason, e = LibraryError reason) /\
  (~ column_key df y_var_name ->
   exists e, plot_scatter_matrix df y_var_name = ([], inl e)).
Proof.
  assert (Hfail : ~ column_key df y_var_name ->
                  exists e, plot_scatter_matrix df y_var_name = ([], inl e)).
  { intros Hnot. unfold plot_scatter_matrix.
    destruct y_var_name as [| name]; [now exists DropWithoutLabels |].
    unfold df_drop. destruct (has_column df name) eqn:Hcol.
    - exfalso. apply Hnot. now exists name.
    - now exists (KeyError (PyStr name)). }
  split; [| split; [| split]].
  - intros [tr Hrun].
    destruct y_var_name as [| name]; [discriminate |].
    destruct (has_column df name) eqn:Hcol; [now exists name |].
    destruct Hfail as [e He].
    + intros [name' [Heq Hcol']]. inversion Heq; subst. congruence.
    + rewrite He in Hrun. discriminate.
  - intros [name [-> Hcol]] Hret.
    destruct (plot_scatter_matrix_count df name Hcol Hret) as [tr [Hrun _]].
    now exists tr.
  - intros [name [-> Hcol]] tr e.
    unfold plot_scatter_matrix, df_drop. rewrite Hcol.
    unfold bind at 1, lift. rewrite sort_features_spec. cbn [df_columns].
    destruct (continuous_after_drop df name) as [Hnames Hnotin].
    rewrite Hnotin.
    assert (Hsame : forall l : list string,
              (if truthy (PyStr name) then l else l) = l)
      by (intros l; now destruct (truthy (PyStr name))).
    rewrite Hsame.
    destruct (render_chunks df (PyStr name) (sample_limit_of df) _)
      as [tr' r] eqn:Hrun.
    intros H. inversion H; subst.
    eapply render_chunks_raises; [| | | exact Hrun];
      [now exists name | exact Hnames | rewrite sample_limit_of_min; lia].
  - exact Hfail.
Qed.

Lemma shown_app cs1 cs2 n : shown (cs1 ++ cs2) n = shown cs1 n ++ shown cs2 n.
Proof. unfold shown. apply flat_map_app. Qed.

(** The loop: chunks that were shown, then at most the chunk on which the
    renderer raised. *)
Lemma scatter_loop_shown df y n cf :
  exists cs tail,
    fst (scatter_loop df y n cf) = shown cs n ++ tail /\
    match snd (scatter_loop df y n cf) with
    | inl (LibraryError _) => exists c, tail = [ScatterMatrix c n]
    | _ => tail = []
    end.
Proof.
  induction cf as [cf IH] using features_ind.
  rewrite scatter_loop_step.
  destruct (5 <? List.length cf) eqn:Hlen; [| now exists [], []].
  apply Nat.ltb_lt in Hlen.
  destruct (select_columns df (loop_keys y cf)) as [e | cs] eqn:Hsel.
  { destruct (select_columns_error _ _ _ Hsel) as [k ->]. now exists [], []. }
  destruct (n <=? df_len df); [| now exists [], []].
  destruct (scatter_matrix_raises (map fst cs) n) as [reason |].
  { exists [], [ScatterMatrix (map fst cs) n]. split; [reflexivity |].
    cbn [snd]. now exists (map fst cs). }
  destruct (IH (skipn 5 cf)) as [shown_chunks [tail [Htr Hend]]];
    [rewrite length_skipn; lia |].
  destruct (scatter_loop df y n (skipn 5 cf)) as [tr r]. cbn [fst snd] in *.
  exists (map fst cs :: shown_chunks), tail. split; [| exact Hend].
  rewrite Htr. reflexivity.
Qed.

(** X3. Every run of the chunk planner, whether it completes or raises,
    issues its calls in this order: the chunks of the loop on which the
    renderer returned, each followed at once by [plt.show()], and then at
    most one scatter matrix that no [plt.show()] follows.  That last
    scatter matrix is there when the run completes (it is the chunk after
    the loop) and when the run ends with the renderer's exception (it is
    the chunk the renderer raised on); it is not there when the run ends
    with another exception.  Every scatter matrix is drawn from
    [sample_limit] rows. *)
Theorem last_chunk_not_shown (df : DataFrame) (y_var_name : pyval)
    (sample_limit : nat) (continuous_features : list string) :
  let run := render_chunks df y_var_name sample_limit continuous_features in
  exists shown_chunks tail,
    fst run = shown shown_chunks sample_limit ++ tail /\
    match snd run with
    | inr _ => exists c, tail = [ScatterMatrix c sample_limit]
    | inl (LibraryError _) => exists c, tail = [ScatterMatrix c sample_limit]
    | inl _ => tail = []
    end.
Proof.
  intros run. subst run. rewrite render_chunks_step.
  destruct (scatter_loop_shown df y_var_name sample_limit continuous_features)
    as [shown_chunks [tail [Htr Hend]]].
  destruct (scatter_loop df y_var_name sample_limit continuous_features)
    as [tr [e | rest]]; cbn [fst snd] in *.
  { exists shown_chunks, tail. split; [assumption |]. now destruct e. }
  subst tail. rewrite app_nil_r in Htr. subst tr.
  destruct (select_columns df (y_var_name :: map PyStr rest)) as [e | cs] eqn:Hsel.
  { destruct (select_columns_error _ _ _ Hsel) as [k ->].
    exists shown_chunks, []. cbn [fst snd]. now rewrite app_nil_r. }
  destruct (sample_limit <=? df_len df).
  - exists shown_chunks, [ScatterMatrix (map fst cs) sample_limit].
    cbn [fst snd]. split; [reflexivity |].
    destruct (scatter_matrix_raises (map fst cs) sample_limit);
      now exists (map fst cs).
  - exists shown_chunks, []. cbn [fst snd]. now rewrite app_nil_r.
Qed.

(** *** Which features each chunk holds *)

Lemma column_has_series df f :
  has_column df f = true -> exists s, In (f, s) (df_columns df).
Proof.
  intros H. apply has_column_in in H. unfold labels in H.
  apply in_map_iff in H. destruct H as [[g s] [Hg Hin]].
  simpl in Hg. subst g. now exists s.
Qed.

Lemma select_columns_labels df l :
  unique_labels df -> column_names df l ->
  exists cs, select_columns df (map PyStr l) = inr cs /\ map fst cs = l.
Proof.
  intros Hnd. induction 1 as [| f l Hf _ [cs [IH Hcs]]]; simpl.
  - now exists [].
  - rewrite Hf, IH. cbn [rbind].
    destruct (column_has_series df f Hf) as [s Hin].
    unfold columns_named. rewrite (filter_label_unique _ _ _ Hnd Hin).
    eexists. split; [reflexivity |]. simpl. now rewrite Hcs.
Qed.

Lemma scatter_loop_chunks df name n cf :
  unique_labels df ->
  has_column df name = true -> name <> EmptyString ->
  column_names df cf -> n <= df_len df ->
  renderer_returns n ->
  exists tr k,
    scatter_loop df (PyStr name) n cf = (tr, inr (skipn (5 * k) cf)) /\
    chunks tr = map (loop_chunk name cf) (seq 0 k) /\
    List.length (skipn (5 * k) cf) <= 5 /\
    (k = 0 \/ 5 * k < List.length cf).
Proof.
  intros Hnd Hy Hname Hcf Hn Hret. induction cf as [cf IH] using features_ind.
  rewrite scatter_loop_step.
  destruct (5 <? List.length cf) eqn:Hlen.
  - apply Nat.ltb_lt in Hlen.
    assert (Htruthy : truthy (PyStr name) = true).
    { simpl. destruct (String.eqb_spec name EmptyString); [contradiction |].
      reflexivity. }
    unfold loop_keys. rewrite Htruthy.
    destruct (select_columns_labels df (name :: firstn 6 cf) Hnd)
      as [cs [Hsel Hlabels]].
    { constructor; [assumption | now apply Forall_slices]. }
    cbn [map] in Hsel. rewrite Hsel.
    apply Nat.leb_le in Hn. rewrite Hn, Hret.
    destruct (IH (skipn 5 cf)) as [tr [k [Heq [Hchunks [Hrest Hk]]]]];
      [rewrite length_skipn; lia | now apply Forall_slices |].
    rewrite Heq. exists (ScatterMatrix (map fst cs) n :: PltShow :: tr), (S k).
    rewrite skipn_skipn in Hrest. rewrite skipn_skipn.
    replace (5 * S k) with (5 * k + 5) by lia.
    split; [reflexivity |]. split; [| split; [assumption |]].
    + cbn [chunks flat_map app]. fold (chunks tr). rewrite Hchunks, Hlabels.
      cbn [seq map]. f_equal.
      rewrite <- seq_shift, map_map. apply map_ext. intros i.
      unfold loop_chunk. rewrite skipn_skipn. do 3 f_equal. lia.
    + right. rewrite length_skipn in Hk. lia.
  - apply Nat.ltb_ge in Hlen. exists [], 0.
    split; [reflexivity |]. split; [reflexivity |]. split; [assumption |].
    now left.
Qed.

Lemma render_chunks_positions (df : DataFrame) (name : string)
    (sample_limit : nat) (continuous_features : list string) :
  unique_labels df ->
  has_column df name = true -> name <> EmptyString ->
  column_names df continuous_features ->
  sample_limit <= df_len df ->
  renderer_returns sample_limit ->
  exists tr k,
    render_chunks df (PyStr name) sample_limit continuous_features
    = (tr, inr tt) /\
    chunks tr
    = map (loop_chunk name continuous_features) (seq 0 k)
      ++ [last_chunk name continuous_features k] /\
    List.length (last_chunk name continuous_features k) <= 6 /\
    (k = 0 \/ 5 * k < List.length continuous_features).
Proof.
  intros Hnd Hy Hname Hcf Hn Hret. rewrite render_chunks_step.
  destruct (scatter_loop_chunks df name sample_limit continuous_features
              Hnd Hy Hname Hcf Hn Hret) as [tr [k [-> [Hchunks [Hrest Hk]]]]].
  destruct (select_columns_labels df
              (name :: skipn (5 * k) continuous_features) Hnd)
    as [cs [Hsel Hlabels]].
  { constructor; [assumption | now apply Forall_slices]. }
  cbn [map] in Hsel. rewrite Hsel.
  apply Nat.leb_le in Hn. rewrite Hn, Hret.
  eexists. exists k. split; [reflexivity |]. split; [| split].
  - rewrite chunks_app, Hchunks. cbn. now rewrite Hlabels.
  - unfold last_chunk. cbn [List.length]. lia.
  - assumption.
Qed.

(** X4. With unique labels, a dependent variable that names a column and
    a renderer that returns on the samples, [plot_scatter_matrix] renders the continuous columns beside the
    dependent variable, and no other column, in k chunks of the loop and
    one after it: chunk i of the loop holds the dependent variable and the
    six features from position 5 i on, the last chunk the dependent
    variable and the features from position 5 k on, at most five.  Every
    feature is in a chunk, and the feature at position 5 i + 5 is in two. *)
Theorem chunks_by_position (df : DataFrame) (name : string) :
  unique_labels df ->
  has_column df name = true -> name <> EmptyString ->
  renderer_returns (sample_limit_of df) ->
  let features :=
    continuous_labels
      (filter (fun c => negb (String.eqb (fst c) name)) (df_columns df)) in
  exists tr k,
    plot_scatter_matrix df (PyStr name) = (tr, inr tt) /\
    chunks tr
    = map (loop_chunk name features) (seq 0 k) ++ [last_chunk name features k] /\
    List.length (last_chunk name features k) <= 6 /\
    (k = 0 \/ 5 * k < List.length features).
Proof.
  intros Hnd Hcol Hname Hret features.
  unfold plot_scatter_matrix, df_drop. rewrite Hcol.
  unfold bind at 1, lift. rewrite sort_features_spec. cbn [df_columns].
  destruct (continuous_after_drop df name) as [Hnames Hnotin].
  rewrite Hnotin. fold features.
  assert (Hsame : (if truthy (PyStr name) then features else features)
                  = features) by now destruct (truthy (PyStr name)).
  rewrite Hsame.
  destruct (render_chunks_positions df name (sample_limit_of df) features
              Hnd Hcol Hname Hnames) as [tr [k [Heq Hrest]]].
  { rewrite sample_limit_of_min. lia. }
  { exact Hret. }
  exists tr, k. split; [| exact Hrest].
  rewrite Heq. now rewrite app_nil_l.
Qed.

(** ** plot_many_univariates: the dependent variable, and the failures *)









Lemma df_getitem_missing df y :
  ~ column_key df y -> df_getitem df y = inl (KeyError y).
Proof.
  intros Hnot. destruct y as [| name]; [reflexivity |].
  unfold df_getitem, columns_named.
  rewrite filter_label_absent; [reflexivity |].
  intros Hin. apply Hnot. exists name. split; [reflexivity |].
  now apply has_column_in.
Qed.

(** X6. When [y_var_name] is no column label and some column is worth a
    plot, the run creates the figure, raises [KeyError] at the first plot
    and has drawn nothing on the figure. *)
Theorem univariates_missing_dependent (df : DataFrame) (y_var_name : pyval)
    (x : string) (sx : Series) :
  unique_labels df ->
  ~ column_key df y_var_name ->
  In (x, sx) (df_columns df) -> eligible sx = true ->
  exists nrows ncols,
    plot_many_univariates df y_var_name
    = ([Subplots nrows ncols], inl (KeyError y_var_name)).
Proof.
  intros Hnd Hnot Hx He. unfold plot_many_univariates.
  rewrite sort_features_spec.
  rewrite (greater_two_filter df (df_columns df) Hnd (incl_refl _)).
  assert (Hone : forall ax f,
            plot_one_univariate ax df f y_var_name
            = ([], inl (KeyError y_var_name))).
  { intros ax f. unfold plot_one_univariate.
    now rewrite (df_getitem_missing df y_var_name Hnot). }
  assert (Hin : In x (map fst (filter (fun c => eligible (snd c))
                                 (df_columns df))))
    by (apply eligible_labels_in; now exists sx).
  destruct (map fst (filter (fun c => eligible (snd c)) (df_columns df)))
    as [| f [| f' l]]; [contradiction | |].
  - exists 1, 1. unfold bind at 1, lift.
    cbn [List.length Nat.ltb Nat.leb Nat.eqb enumerate seq combine for_each].
    rewrite Hone. reflexivity.
  - eexists. exists 2.
    change (1 <? List.length (f :: f' :: l)) with true. cbv iota.
    unfold bind at 1, lift. unfold enumerate.
    cbn [List.length seq combine for_each]. rewrite Hone. reflexivity.
Qed.

Lemma filter_raising_error {A : Type} (p : A -> result bool) (l : list A)
    (e : exn) :
  (forall x, In x l -> (exists b, p x = inr b) \/ p x = inl e) ->
  (exists x, In x l /\ p x = inl e) ->
  filter_raising p l = inl e.
Proof.
  induction l as [| x l IH]; intros Hall [x0 [Hin He]]; [contradiction |].
  simpl. destruct (Hall x (or_introl eq_refl)) as [[b Hb] | Hx].
  - rewrite Hb. cbn [rbind]. rewrite IH; [reflexivity | |].
    + intros x' Hx'. apply Hall. now right.
    + destruct Hin as [<- | Hin]; [congruence | now exists x0].
  - now rewrite Hx.
Qed.

(** X7. When a continuous label is carried by two columns or more,
    [df[x]] is a sub-frame, [unique] is missing on it, and
    [plot_many_univariates] raises [AttributeError] before it draws or
    prints anything. *)
Theorem repeated_label_raises (df : DataFrame) (y_var_name : pyval)
    (f : string) :
  In f (fst (sort_features df)) ->
  2 <= List.length (columns_named df f) ->
  plot_many_univariates df y_var_name = ([], inl (NoAttribute "unique")).
Proof.
  rewrite sort_features_spec. cbn [fst]. intros Hf Hrep.
  unfold plot_many_univariates. rewrite sort_features_spec.
  rewrite filter_raising_error with (e := NoAttribute "unique");
    [reflexivity | |].
  - intros x Hx. apply in_continuous_labels in Hx.
    destruct Hx as [s [Hin _]]. unfold len_unique, df_getitem.
    assert (Hnamed : In (x, s) (columns_named df x)).
    { unfold columns_named. apply filter_In. split; [assumption |].
      apply String.eqb_refl. }
    destruct (columns_named df x) as [| [g t] [| c cs]];
      [contradiction | | now right].
    left. cbn [rbind]. eauto.
  - exists f. split; [assumption |]. unfold len_unique, df_getitem.
    destruct (columns_named df f) as [| [g t] [| c cs]]; simpl in Hrep;
      [lia | lia | reflexivity].
Qed.

(** ** plot_rocs: the whole trace *)

(** X8. When the pipeline, if there is one, transforms the data,
    [plot_rocs] creates its one figure, also for no model, and then goes
    through the models; a model without [predict_proba] adds nothing.  When
    scikit-learn computes the area of every model that has
    [predict_proba], the run ends without exception and has issued, for
    each such model in turn and on the same axes, the title, the curve
    under its label, the legend, the chance line, the limits and the axis
    labels.  When it raises for a model, the run ends with that exception:
    the calls of the models before it are issued, none of that model or of
    the models after it.  When the pipeline raises, nothing is drawn. *)
Theorem plot_rocs_trace (df_X : DataFrame) (y : target)
    (pipeline : option (DataFrame -> computed DataFrame))
    (text : Model -> string) :
  (forall X models,
     pipeline_transform pipeline df_X = inr X ->
     (forall model, In model models -> in_dir "predict_proba" model = true ->
        auc_text model X y = Returns (text model)) ->
     plot_rocs models df_X y pipeline
     = (Subplots 1 1
        :: flat_map (fun model =>
                       if in_dir "predict_proba" model
                       then [AxSetTitle 0 "Receiver Operating Characteristic";
                             RocCurve 0 ("AUC " ++ class_name model ++ " = "
                                         ++ text model)%string;
                             AxLegend 0; ChanceLine 0; AxSetXlim 0; AxSetYlim 0;
                             AxSetYlabel 0 "True Positive Rate";
                             AxSetXlabel 0 "False Positive Rate"]
                       else []) models,
        inr tt)) /\
  (forall X good bad rest reason,
     pipeline_transform pipeline df_X = inr X ->
     (forall model, In model good -> in_dir "predict_proba" model = true ->
        auc_text model X y = Returns (text model)) ->
     in_dir "predict_proba" bad = true ->
     auc_text bad X y = Fails reason ->
     plot_rocs (good ++ bad :: rest) df_X y pipeline
     = (Subplots 1 1 :: rocs_calls text good, inl (LibraryError reason))) /\
  (forall e models,
     pipeline_transform pipeline df_X = inl e ->
     plot_rocs models df_X y pipeline = ([], inl e)).
Proof.
  split; [| split].
  - intros X models HX Hall. unfold plot_rocs. rewrite HX.
    unfold bind at 1, lift. unfold bind at 1, emit.
    now rewrite (rocs_loop models X y text Hall).
  - intros X good bad rest reason HX Hall Hdir Hfail. unfold plot_rocs.
    rewrite HX. unfold bind at 1, lift. unfold bind at 1, emit.
    now rewrite (rocs_loop_fails good bad rest X y text reason Hall Hdir Hfail).
  - intros e models HX. unfold plot_rocs. now rewrite HX.
Qed.

(** * Properties of the other functions *)

(** ** emperical_distribution *)

Lemma at_or_below_cons v d data :
  at_or_below v (d :: data)
  = (if Z.leb d v then 1 else 0) + at_or_below v data.
Proof. unfold at_or_below. simpl. now destruct (Z.leb d v). Qed.

Lemma count_fold_nil data :
  fold_left (fun count datum => add_indicator datum [] count) data [] = [].
Proof. induction data as [| d data IH]; [reflexivity | exact IH]. Qed.

Lemma count_fold_cons data v x c cs :
  fold_left (fun count datum => add_indicator datum (v :: x) count) data
    (c :: cs)
  = (c + at_or_below v data)
    :: fold_left (fun count datum => add_indicator datum x count) data cs.
Proof.
  revert c cs. induction data as [| d data IH]; intros c cs.
  - simpl. unfold at_or_below. simpl. now rewrite Nat.add_0_r.
  - cbn [fold_left]. unfold add_indicator at 2. cbn [combine map fst snd].
    fold (add_indicator d x cs). rewrite IH, at_or_below_cons.
    f_equal. lia.
Qed.

(** The vector of counts the loop over the data builds. *)
Lemma count_fold x data :
  fold_left (fun count datum => add_indicator datum x count) data
    (repeat 0 (List.length x))
  = map (fun v => at_or_below v data) x.
Proof.
  induction x as [| v x IH]; simpl.
  - apply count_fold_nil.
  - now rewrite count_fold_cons, IH.
Qed.

Lemma emperical_distribution_value x d data :
  emperical_distribution x (d :: data)
  = inr (map (fun v => mkFraction (at_or_below v (d :: data))
                         (S (List.length data))) x).
Proof.
  unfold emperical_distribution. cbn [List.length].
  rewrite count_fold, map_map. reflexivity.
Qed.

(** X9. On no data [emperical_distribution] raises [ZeroDivisionError];
    on data it returns, for each point of x in turn and whatever the two
    lengths, the number of data at or below the point over the number of
    data. *)
Theorem emperical_distribution_counts (x data : list Z) :
  (data = [] -> emperical_distribution x data = inl ZeroDivisionError) /\
  (data <> [] ->
   emperical_distribution x data
   = inr (map (fun v => mkFraction (at_or_below v data) (List.length data)) x)).
Proof.
  split.
  - intros ->. reflexivity.
  - intros Hdata. destruct data as [| d data]; [contradiction |].
    apply emperical_distribution_value.
Qed.

Lemma at_or_below_le v data : at_or_below v data <= List.length data.
Proof. unfold at_or_below. apply filter_length_le. Qed.

Lemma at_or_below_mono v w data :
  (v <= w)%Z -> at_or_below v data <= at_or_below w data.
Proof.
  intros Hvw. induction data as [| d data IH]; [reflexivity |].
  rewrite !at_or_below_cons.
  destruct (Z.leb_spec d v), (Z.leb_spec d w); lia.
Qed.

Lemma at_or_below_none v data :
  (forall d, In d data -> (v < d)%Z) -> at_or_below v data = 0.
Proof.
  induction data as [| d data IH]; intros Hall; [reflexivity |].
  rewrite at_or_below_cons, IH.
  - assert (Hd : (v < d)%Z) by (apply Hall; now left).
    destruct (Z.leb_spec d v); lia.
  - intros e He. apply Hall. now right.
Qed.

Lemma at_or_below_all v data :
  (forall d, In d data -> (d <= v)%Z) -> at_or_below v data = List.length data.
Proof.
  induction data as [| d data IH]; intros Hall; [reflexivity |].
  rewrite at_or_below_cons, IH.
  - assert (Hd : (d <= v)%Z) by (apply Hall; now left).
    destruct (Z.leb_spec d v); simpl; lia.
  - intros e He. apply Hall. now right.
Qed.

(** X10. The counts behind the values [emperical_distribution] returns
    on data: the array has one entry per point, each count lies between 0
    and the number of data, which is positive; the count is the number of
    data at a point no datum exceeds and 0 at a point below every datum,
    and a point at or above another has a count at least as large.  The
    returned value is the floating-point product of the count and of
    [1.0 / len(data)]; what rounding makes of it is not stated here. *)
Theorem emperical_distribution_is_a_distribution (x data : list Z)
    (r : list fraction) :
  emperical_distribution x data = inr r ->
  List.length r = List.length x /\
  (forall i v f, nth_error x i = Some v -> nth_error r i = Some f ->
     num f <= den f /\ 0 < den f /\
     ((forall d, In d data -> (d <= v)%Z) -> num f = den f) /\
     ((forall d, In d data -> (v < d)%Z) -> num f = 0)) /\
  (forall i j v w f g,
     nth_error x i = Some v -> nth_error x j = Some w ->
     nth_error r i = Some f -> nth_error r j = Some g ->
     (v <= w)%Z -> num f <= num g).
Proof.
  intros Hrun. destruct data as [| d data]; [discriminate |].
  rewrite emperical_distribution_value in Hrun. inversion Hrun as [Hr].
  clear Hrun. set (data' := d :: data) in *.
  assert (Hnth : forall i v f,
            nth_error x i = Some v ->
            nth_error
              (map (fun v => mkFraction (at_or_below v data')
                               (S (List.length data))) x) i = Some f ->
            f = mkFraction (at_or_below v data') (S (List.length data))).
  { intros i v f Hv Hf. rewrite nth_error_map, Hv in Hf. now inversion Hf. }
  split; [now rewrite length_map |]. split.
  - intros i v f Hv Hf. rewrite (Hnth i v f Hv Hf). cbn [num den].
    split; [apply (at_or_below_le v data') |]. split; [lia |]. split.
    + intros Hall. now rewrite at_or_below_all.
    + intros Hall. now apply at_or_below_none.
  - intros i j v w f g Hv Hw Hf Hg Hvw.
    rewrite (Hnth i v f Hv Hf), (Hnth j w g Hw Hg). cbn [num].
    now apply at_or_below_mono.
Qed.

(** ** gal_display_coef *)

Lemma string_length_app (a b : string) :
  String.length (a ++ b) = String.length a + String.length b.
Proof. induction a as [| c a IH]; simpl; [reflexivity | now rewrite IH]. Qed.

Lemma string_of_list_length (l : list ascii) :
  String.length (string_of_list_ascii l) = List.length l.
Proof. induction l as [| c l IH]; simpl; [reflexivity | now rewrite IH]. Qed.

Lemma ljust_length w s : String.length (ljust w s) = Nat.max w (String.length s).
Proof.
  unfold ljust. rewrite string_length_app, string_of_list_length, repeat_length.
  lia.
Qed.

Lemma table_row_length a b :
  String.length (table_row a b)
  = Nat.max 35 (String.length a) + Nat.max 20 (String.length b).
Proof. unfold table_row. now rewrite string_length_app, !ljust_length. Qed.

Lemma combine_scalars (texts : list string) (coef_names : list string) :
  combine (map Scalar texts) coef_names
  = map (fun p => (Scalar (fst p), snd p)) (combine texts coef_names).
Proof.
  revert coef_names. induction texts as [| t texts IH]; intros [| n names];
    simpl; try reflexivity. now rewrite IH.
Qed.

Lemma display_rows (pairs : list (string * string)) :
  for_each (map (fun p => (Scalar (fst p), snd p)) pairs)
    (fun '(coef, name) =>
       row <- lift (format_row name coef) ;; emit (PyPrint row))
  = (map (fun p => PyPrint (table_row (snd p) (fst p))) pairs, inr tt).
Proof.
  induction pairs as [| [coef name] pairs IH]; [reflexivity |].
  cbn [for_each map fst snd] in IH |- *. rewrite IH. reflexivity.
Qed.

(** The rows stop at the first coefficient that has no format. *)
Lemma display_rows_until (pairs : list (string * string)) (name : string)
    (rest : list (coef * string)) :
  for_each (map (fun p => (Scalar (fst p), snd p)) pairs
            ++ (NotScalar, name) :: rest)
    (fun '(coef, name) =>
       row <- lift (format_row name coef) ;; emit (PyPrint row))
  = (map (fun p => PyPrint (table_row (snd p) (fst p))) pairs,
     inl FormatError).
Proof.
  induction pairs as [| [coef name'] pairs IH]; [reflexivity |].
  cbn [for_each map fst snd app] in IH |- *. rewrite IH. reflexivity.
Qed.

Lemma gal_display_coef_trace texts coef_names :
  gal_display_coef (map Scalar texts) coef_names
  = (PyPrint (table_row "Name" "Parameter Estimate")
     :: PyPrint (string_of_list_ascii (repeat "-"%char 55))
     :: map (fun p => PyPrint (table_row (snd p) (fst p)))
          (combine texts coef_names),
     inr tt).
Proof.
  unfold gal_display_coef. rewrite combine_scalars, display_rows. reflexivity.
Qed.

Lemma printed_rows (pairs : list (string * string)) :
  printed (map (fun p => PyPrint (table_row (snd p) (fst p))) pairs)
  = map (fun p => table_row (snd p) (fst p)) pairs.
Proof. induction pairs as [| p pairs IH]; simpl; [reflexivity | now rewrite IH]. Qed.

Lemma combine_app_shorter {A B : Type} (l l' : list A) (names : list B) :
  List.length names <= List.length l ->
  combine (l ++ l') names = combine l names.
Proof.
  revert names. induction l as [| a l IH]; intros [| n names] Hlen.
  - now destruct l'.
  - simpl in Hlen. lia.
  - reflexivity.
  - simpl in *. f_equal. apply IH. lia.
Qed.

Lemma combine_app_longer {A B : Type} (l l' : list A) (names : list B) :
  List.length l <= List.length names ->
  combine (l ++ l') names
  = combine l names ++ combine l' (skipn (List.length l) names).
Proof.
  revert names. induction l as [| a l IH]; intros names Hlen;
    [reflexivity |].
  destruct names as [| n names]; simpl in *; [lia |].
  rewrite IH by lia. reflexivity.
Qed.

(** X11. [gal_display_coef] prints the header, the rule and one row per
    pair of [zip(coefs, coef_names)] as long as [format] takes the
    coefficient.  With coefficients that are all numbers the run completes
    with as many rows as the shorter of the two lists, the rest of the
    longer one left out; values beyond the names are never formatted, so
    they do no harm.  At the first coefficient within the names that has no
    format (an array, [None]) the run raises [TypeError]: the header, the
    rule and the rows before it are printed, no row after. *)
Theorem display_coef_row_count (texts : list string) (rest : list coef)
    (coef_names : list string) :
  (exists tr,
     gal_display_coef (map Scalar texts) coef_names = (tr, inr tt) /\
     List.length (printed tr)
     = 2 + Nat.min (List.length texts) (List.length coef_names) /\
     skipn 2 (printed tr)
     = map (fun p => table_row (snd p) (fst p)) (combine texts coef_names)) /\
  (List.length coef_names <= List.length texts ->
   gal_display_coef (map Scalar texts ++ rest) coef_names
   = gal_display_coef (map Scalar texts) coef_names) /\
  (List.length texts < List.length coef_names ->
   exists tr,
     gal_display_coef (map Scalar texts ++ NotScalar :: rest) coef_names
     = (tr, inl FormatError) /\
     printed tr
     = table_row "Name" "Parameter Estimate"
       :: string_of_list_ascii (repeat "-"%char 55)
       :: map (fun p => table_row (snd p) (fst p)) (combine texts coef_names)).
Proof.
  split; [| split].
  - rewrite gal_display_coef_trace. eexists. split; [reflexivity |].
    cbn [printed flat_map app]. fold (printed
      (map (fun p => PyPrint (table_row (snd p) (fst p)))
         (combine texts coef_names))).
    rewrite printed_rows. cbn [List.length skipn].
    now rewrite length_map, length_combine.
  - intros Hlen. unfold gal_display_coef.
    rewrite combine_app_shorter by (now rewrite length_map). reflexivity.
  - intros Hlen. unfold gal_display_coef.
    rewrite combine_app_longer by (rewrite length_map; lia).
    rewrite length_map, combine_scalars.
    destruct (skipn (List.length texts) coef_names) as [| name names] eqn:Hskip.
    { assert (H : List.length (skipn (List.length texts) coef_names) = 0)
        by now rewrite Hskip.
      rewrite length_skipn in H. lia. }
    cbn [combine]. rewrite display_rows_until.
    eexists. split; [reflexivity |].
    cbn [printed flat_map app]. fold (printed
      (map (fun p => PyPrint (table_row (snd p) (fst p)))
         (combine texts coef_names))).
    now rewrite printed_rows.
Qed.

(** X12. The table is aligned as long as the texts fit: the header and the
    rule are 55 characters wide, every row is at least as wide, and a row
    whose name has at most 35 characters and whose coefficient text has at
    most 20 is exactly 55 wide; a longer name is not cut and makes its row
    wider. *)
Theorem display_coef_alignment (coefs coef_names : list string) :
  let lines := printed (fst (gal_display_coef (map Scalar coefs) coef_names)) in
  String.length (nth 0 lines EmptyString) = 55 /\
  String.length (nth 1 lines EmptyString) = 55 /\
  Forall (fun line => 55 <= String.length line) lines /\
  (forall i coef name,
     nth_error coefs i = Some coef -> nth_error coef_names i = Some name ->
     String.length (nth (2 + i) lines EmptyString)
     = Nat.max 35 (String.length name) + Nat.max 20 (String.length coef)).
Proof.
  intros lines. subst lines. rewrite gal_display_coef_trace. cbn [fst].
  cbn [printed flat_map app]. fold (printed
    (map (fun p => PyPrint (table_row (snd p) (fst p)))
       (combine coefs coef_names))).
  rewrite printed_rows. split; [reflexivity |]. split; [reflexivity |]. split.
  - constructor; [cbn; lia |]. constructor; [cbn; lia |].
    apply Forall_map. apply Forall_forall. intros p _.
    rewrite table_row_length. lia.
  - intros i coef name Hc Hn. cbn [plus nth].
    assert (Hpair : nth_error (combine coefs coef_names) i = Some (coef, name)).
    { revert coef_names i Hc Hn.
      induction coefs as [| c coefs IH]; intros [| n names] [| i] Hc Hn;
        try discriminate; simpl in *.
      - now inversion Hc; inversion Hn.
      - now apply IH. }
    rewrite <- table_row_length.
    erewrite nth_error_nth; [reflexivity |].
    rewrite nth_error_map, Hpair. reflexivity.
Qed.

(** ** plot_many_residuals *)

Lemma abind_areturn {A B : Type} (a : A) (k : A -> act B) :
  abind (areturn a) k = k a.
Proof. unfold abind, areturn. now destruct (k a). Qed.

Lemma of_result_inr {A : Type} (a : A) : of_result (inr a) = areturn a.
Proof. reflexivity. Qed.

Lemma abind_acall {B : Type} (c : call) (k : unit -> act B) :
  abind (acall c) k = let (tr, r) := k tt in (c :: tr, r).
Proof. reflexivity. Qed.

(** Run the head of a sequence of actions whose value is known. *)
Ltac act_run :=
  repeat first [ rewrite of_result_inr
               | rewrite abind_areturn
               | rewrite abind_acall; cbv beta ].

Lemma plt_subplots_array n :
  2 <= n ->
  plt_subplots n = ([Drawn (Subplots n 1)], inr (AxesArray n)).
Proof. intros Hn. destruct n as [| [| n]]; [lia | lia | reflexivity]. Qed.

Lemma df_getitem_label df name :
  In name (labels df) -> exists it, df_getitem df (PyStr name) = inr it.
Proof.
  intros Hin. unfold labels in Hin. apply in_map_iff in Hin.
  destruct Hin as [[g s] [Hg Hin]]. simpl in Hg. subst g.
  assert (Hnamed : In (name, s) (columns_named df name)).
  { unfold columns_named. apply filter_In. split; [assumption |].
    apply String.eqb_refl. }
  unfold df_getitem.
  destruct (columns_named df name) as [| [g t] [| c cs]];
    [contradiction | eauto | eauto].
Qed.

Lemma scattered_app tr1 tr2 :
  scattered (tr1 ++ tr2) = scattered tr1 ++ scattered tr2.
Proof. unfold scattered. apply flat_map_app. Qed.

Lemma df_getitem_series df name :
  unique_labels df -> In name (labels df) ->
  exists s, df_getitem df (PyStr name) = inr (ItemSeries s).
Proof.
  intros Hnd Hin. apply has_column_in in Hin.
  destruct (column_has_series df name Hin) as [s Hs].
  exists s. now apply df_getitem_unique.
Qed.

Lemma df_getitem_frame df name :
  2 <= List.length (columns_named df name) ->
  df_getitem df (PyStr name) = inr (ItemFrame (columns_named df name)).
Proof.
  intros Hrep. unfold df_getitem.
  destruct (columns_named df name) as [| [g t] [| c cs]]; simpl in Hrep;
    [lia | lia | reflexivity].
Qed.

Lemma plot_residual_trace ax name n :
  plot_residual ax name n (Returns n)
  = ([AxHline ax; AxScatter ax name Residuals (Some "grey");
      Drawn (AxSetYlabel ax "Residuals ($y - \hat y$)")],
     inr tt).
Proof.
  unfold plot_residual, ax_scatter. cbn [outcome].
  rewrite of_result_inr, abind_areturn, Nat.eqb_refl. reflexivity.
Qed.

Lemma residuals_loop df_X (l : list string) (n k : nat) :
  unique_labels df_X ->
  (forall name, In name l -> In name (labels df_X)) ->
  exists tr,
    afor_each (combine (seq k n) l)
      (fun '(ax, name) =>
         x <~ of_result (df_getitem df_X (PyStr name)) ;;
         plot_residual ax name (item_size df_X x) (Returns (df_len df_X)) ;;;
         draw (AxSetXlabel ax name) ;;;
         draw (AxSetTitle ax ("Model Residuals by " ++ name)%string))
    = (tr, inr tt) /\
    scattered tr = firstn n l.
Proof.
  intros Hnd. revert l k. induction n as [| n IH]; intros l k Hl.
  - exists []. split; reflexivity.
  - destruct l as [| name l]; [exists []; split; reflexivity |].
    destruct (df_getitem_series df_X name Hnd (Hl name (or_introl eq_refl)))
      as [sx Hit].
    destruct (IH l (S k)) as [tr [Heq Hsc]].
    { intros name' Hin. apply Hl. now right. }
    cbn [seq combine afor_each]. rewrite Heq, Hit.
    rewrite of_result_inr, abind_areturn. cbn [item_size].
    rewrite plot_residual_trace.
    exists ([AxHline k; AxScatter k name Residuals (Some "grey");
             Drawn (AxSetYlabel k "Residuals ($y - \hat y$)");
             Drawn (AxSetXlabel k name);
             Drawn (AxSetTitle k ("Model Residuals by " ++ name)%string)]
            ++ tr).
    split; [reflexivity |]. rewrite scattered_app, Hsc. reflexivity.
Qed.

(** X13. [plot_many_residuals] makes one row of axes per row of the frame,
    not per column.  On a frame of one row, whatever its columns,
    [plt.subplots] returns a single Axes and the [zip] over it raises
    [TypeError], after the figure is created and before any plot.  On two
    rows or more, with unique labels and as many residuals as rows, the
    run completes and draws the residuals against the first columns only,
    as many as there are rows: the columns beyond are left out without
    notice, and with fewer columns than rows the axes beyond stay empty.
    On two rows or more the run raises at its first column when the
    residuals cannot be computed, before anything is drawn on the axes,
    and when the label of that column is repeated, at the scatter: the
    sub-frame has more values than there are residuals. *)
Theorem residuals_rows_not_columns (df_X : DataFrame)
    (residuals : computed nat) :
  (df_len df_X = 1 ->
   plot_many_residuals df_X residuals
   = ([Drawn (Subplots 1 1)], inl NotIterable)) /\
  (2 <= df_len df_X ->
   unique_labels df_X ->
   residuals = Returns (df_len df_X) ->
   exists tr,
     plot_many_residuals df_X residuals
     = (tr, inr (AxesArray (df_len df_X))) /\
     scattered tr = firstn (df_len df_X) (labels df_X)) /\
  (2 <= df_len df_X ->
   forall name rest reason,
     labels df_X = name :: rest ->
     residuals = Fails reason ->
     plot_many_residuals df_X residuals
     = ([Drawn (Subplots (df_len df_X) 1)],
        inl (Raised (LibraryError reason)))) /\
  (2 <= df_len df_X ->
   forall name rest,
     labels df_X = name :: rest ->
     2 <= List.length (columns_named df_X name) ->
     residuals = Returns (df_len df_X) ->
     plot_many_residuals df_X residuals
     = ([Drawn (Subplots (df_len df_X) 1); AxHline 0], inl SizeMismatch)).
Proof.
  split; [| split; [| split]].
  - intros Hlen. unfold plot_many_residuals. now rewrite Hlen.
  - intros Hlen Hnd ->. unfold plot_many_residuals.
    destruct (residuals_loop df_X (labels df_X) (df_len df_X) 0 Hnd
                (fun _ H => H)) as [tr [Heq Hsc]].
    rewrite (plt_subplots_array _ Hlen). unfold abind at 1.
    cbn [zip_axes]. rewrite abind_areturn. unfold abind at 1. rewrite Heq.
    eexists. split; [reflexivity |].
    rewrite !scattered_app. cbn. now rewrite app_nil_r.
  - intros Hlen name rest reason Hlabels ->. unfold plot_many_residuals.
    rewrite (plt_subplots_array _ Hlen). unfold abind at 1.
    cbn [zip_axes]. rewrite abind_areturn. rewrite Hlabels.
    destruct (df_getitem_label df_X name) as [it Hit];
      [rewrite Hlabels; now left |].
    destruct (df_len df_X) as [| m]; [lia |].
    cbn [seq combine afor_each]. rewrite Hit.
    rewrite of_result_inr, abind_areturn. reflexivity.
  - intros Hlen name rest Hlabels Hrep ->. unfold plot_many_residuals.
    rewrite (plt_subplots_array _ Hlen). unfold abind at 1.
    cbn [zip_axes]. rewrite abind_areturn. rewrite Hlabels.
    pose proof (df_getitem_frame df_X name Hrep) as Hit.
    assert (Hsize : (df_len df_X * List.length (columns_named df_X name)
                     =? df_len df_X) = false) by (apply Nat.eqb_neq; nia).
    remember (df_len df_X) as n eqn:Hn.
    destruct n as [| m]; [lia |].
    cbn [seq combine afor_each]. rewrite Hit.
    rewrite of_result_inr, abind_areturn.
    unfold plot_residual, ax_scatter. cbn [outcome item_size].
    rewrite of_result_inr, abind_areturn, <- Hn, Hsize. reflexivity.
Qed.

(** ** plot_partial_dependences *)

Lemma curves_app tr1 tr2 : curves (tr1 ++ tr2) = curves tr1 ++ curves tr2.
Proof. unfold curves. apply flat_map_app. Qed.

Lemma light_curves ax name (models : list Model) :
  afor_each models
    (fun M => acall (PartialDependence ax M name (Some "lightblue")))
  = (map (fun M => PartialDependence ax M name (Some "lightblue")) models,
     inr tt).
Proof.
  induction models as [| M models IH]; [reflexivity |].
  cbn [afor_each]. rewrite IH. reflexivity.
Qed.

Lemma bootstrap_curves_trace ax name bootstrap_models :
  bootstrap_curves ax name bootstrap_models
  = (map (fun M => PartialDependence ax M name (Some "lightblue"))
       (firstn 10 (bootstrap_list bootstrap_models)),
     inr tt).
Proof.
  destruct bootstrap_models as [[| M models] |]; try reflexivity.
  unfold bootstrap_curves. apply light_curves.
Qed.

Lemma curves_of_light ax name (models : list Model) :
  curves (map (fun M => PartialDependence ax M name (Some "lightblue")) models)
  = map (fun M => (ax, M, name)) models.
Proof. induction models as [| M models IH]; simpl; [reflexivity | now rewrite IH]. Qed.

Lemma dependences_loop model bootstrap_models (pairs : list (nat * string)) :
  exists tr,
    afor_each pairs
      (fun '(ax, name) =>
         bootstrap_curves ax name bootstrap_models ;;;
         acall (PartialDependence ax model name (Some "blue")) ;;;
         draw (AxSetTitle ax (name ++ " Partial Dependence")%string))
    = (tr, inr tt) /\
    curves tr = flat_map (curves_on model bootstrap_models) pairs.
Proof.
  induction pairs as [| [ax name] pairs [tr [IH Hc]]].
  - exists []. split; reflexivity.
  - cbn [afor_each]. rewrite IH, bootstrap_curves_trace.
    exists ((map (fun M => PartialDependence ax M name (Some "lightblue"))
               (firstn 10 (bootstrap_list bootstrap_models))
             ++ [PartialDependence ax model name (Some "blue");
                 Drawn (AxSetTitle ax (name ++ " Partial Dependence")%string)])
            ++ tr).
    split.
    + unfold abind, acall, draw. simpl. now rewrite <- !app_assoc.
    + rewrite !curves_app, curves_of_light, Hc. reflexivity.
Qed.

(** X14. [plot_partial_dependences] cannot plot a single variable: for
    one name [plt.subplots] returns a single Axes, and the [zip] over it
    raises [TypeError] after the figure is created, before any curve.  For
    two names or more it completes and draws, on the axes of each name in
    turn, one curve per bootstrap model, of the first ten only, and then
    the curve of the model itself; [None] and the empty list give no
    bootstrap curve. *)
Theorem dependences_curves (model : Model) (var_names : list string)
    (bootstrap_models : option (list Model)) :
  (List.length var_names = 1 ->
   plot_partial_dependences model var_names bootstrap_models
   = ([Drawn (Subplots 1 1)], inl NotIterable)) /\
  (2 <= List.length var_names ->
   exists tr,
     plot_partial_dependences model var_names bootstrap_models
     = (tr, inr (AxesArray (List.length var_names))) /\
     curves tr
     = flat_map (curves_on model bootstrap_models) (enumerate var_names)).
Proof.
  split.
  - intros Hlen. unfold plot_partial_dependences. now rewrite Hlen.
  - intros Hlen. unfold plot_partial_dependences.
    rewrite (plt_subplots_array _ Hlen). unfold abind at 1.
    cbn [zip_axes]. rewrite abind_areturn.
    destruct (dependences_loop model bootstrap_models
                (combine (seq 0 (List.length var_names)) var_names))
      as [tr [Heq Hc]].
    unfold abind at 1. rewrite Heq.
    eexists. split; [reflexivity |].
    rewrite !curves_app, Hc. cbn. now rewrite app_nil_r.
Qed.

(** ** shaped_plot_partial_dependences *)

Lemma py_in_column_key df y :
  py_in y (labels df) = true <-> column_key df y.
Proof.
  split.
  - intros H. destruct y as [| name]; [discriminate |]. now exists name.
  - intros [name [-> H]]. exact H.
Qed.

Lemma remove_first_length s l :
  existsb (String.eqb s) l = true ->
  S (List.length (remove_first s l)) = List.length l.
Proof.
  induction l as [| x l IH]; simpl; [discriminate |].
  rewrite (String.eqb_sym s x). destruct (String.eqb x s); [reflexivity |].
  simpl. intros H. now rewrite IH.
Qed.

Lemma column_key_ops df y :
  column_key df y ->
  (exists d, df_drop df y = inr d) /\ (exists it, df_getitem df y = inr it).
Proof.
  intros [name [-> Hcol]]. split.
  - unfold df_drop. rewrite Hcol. eauto.
  - apply df_getitem_label. now apply has_column_in.
Qed.

Lemma ceil_half_room n : n <= ceil_half n * 2.
Proof.
  unfold ceil_half. pose proof (Nat.div_mod_eq (n + 1) 2) as Hd.
  pose proof (Nat.mod_upper_bound (n + 1) 2). lia.
Qed.

Lemma flatten_at_ok n i : i < n -> flatten_at (AxesArray n) i = areturn i.
Proof. intros H. unfold flatten_at. apply Nat.ltb_lt in H. now rewrite H. Qed.

Lemma shaped_grid_loop model df y (n : nat) (l : list string) (k : nat) :
  column_key df y -> k + List.length l <= n ->
  exists tr,
    afor_each (combine (seq k (List.length l)) l)
      (fun '(i, X_feature) =>
         ax <~ flatten_at (AxesArray n) i ;;
         X <~ of_result (df_drop df y) ;;
         y' <~ of_result (df_getitem df y) ;;
         acall (PartialDependence ax model X_feature None) ;;;
         ax <~ flatten_at (AxesArray n) i ;;
         draw (AxSetTitle ax
                 (X_feature ++ ": Partial Dependence Plot "
                  ++ class_name model)%string))
    = (tr, inr tt) /\
    curves tr
    = map (fun p => (fst p, model, snd p)) (combine (seq k (List.length l)) l).
Proof.
  intros Hy. destruct (column_key_ops df y Hy) as [[d Hd] [it Hit]].
  revert k. induction l as [| f l IH]; intros k Hk.
  - exists []. split; reflexivity.
  - cbn [List.length] in Hk.
    destruct (IH (S k)) as [tr [Heq Hc]]; [lia |].
    cbn [List.length seq combine afor_each].
    rewrite Heq. rewrite !flatten_at_ok by lia. rewrite abind_areturn, Hd, Hit.
    exists ([PartialDependence k model f None;
             Drawn (AxSetTitle k (f ++ ": Partial Dependence Plot "
                                  ++ class_name model)%string)] ++ tr).
    split; [reflexivity |]. rewrite curves_app, Hc. reflexivity.
Qed.

(** X15. [shaped_plot_partial_dependences] draws nothing in two cases:
    when [y_var_name] is no column label, [list.remove] raises
    [ValueError]; when it labels the only column, the run prints that there
    is no feature to plot and ends. *)
Theorem shaped_nothing_to_plot (model : Model) (df : DataFrame)
    (y_var_name : pyval) :
  (~ column_key df y_var_name ->
   shaped_plot_partial_dependences model df y_var_name = ([], inl NotInList)) /\
  (column_key df y_var_name -> List.length (labels df) = 1 ->
   shaped_plot_partial_dependences model df y_var_name
   = ([Drawn (PyPrint "No Features to Plot")], inr tt)).
Proof.
  unfold shaped_plot_partial_dependences. split.
  - intros Hnot. destruct (py_in y_var_name (labels df)) eqn:Hin;
      [| reflexivity].
    exfalso. apply Hnot. now apply py_in_column_key.
  - intros Hy Hone. rewrite (proj2 (py_in_column_key df y_var_name) Hy).
    rewrite abind_areturn.
    destruct Hy as [name [-> Hcol]]. cbn [list_remove].
    pose proof (remove_first_length name (labels df) Hcol) as Hlen.
    destruct (remove_first name (labels df)) as [| f l]; [reflexivity |].
    simpl in Hlen. lia.
Qed.

(** X16. With exactly one column beside the dependent variable the run
    draws that one partial dependence and its title and then raises
    [AttributeError]: the figure has no [set_title].  The function never
    completes on such a frame. *)
Theorem shaped_single_feature_raises (model : Model) (df : DataFrame)
    (y_var_name : pyval) :
  column_key df y_var_name -> List.length (labels df) = 2 ->
  exists X_feature,
    list_remove y_var_name (labels df) = [X_feature] /\
    shaped_plot_partial_dependences model df y_var_name
    = ([Drawn (Subplots 1 1);
        PartialDependence 0 model X_feature None;
        Drawn (AxSetTitle 0 (X_feature ++ ": Partial Dependence Plots "
                             ++ class_name model)%string)],
       inl (Raised (NoAttribute "set_title"))).
Proof.
  intros Hy Htwo. unfold shaped_plot_partial_dependences.
  rewrite (proj2 (py_in_column_key df y_var_name) Hy), abind_areturn.
  destruct (column_key_ops df y_var_name Hy) as [[d Hd] [it Hit]].
  destruct Hy as [name [-> Hcol]]. cbn [list_remove].
  pose proof (remove_first_length name (labels df) Hcol) as Hlen.
  destruct (remove_first name (labels df)) as [| f [| f' l]];
    simpl in Hlen; try lia.
  exists f. split; [reflexivity |].
  cbn [List.length Nat.ltb Nat.leb Nat.eqb enumerate seq combine afor_each].
  rewrite Hd, Hit. reflexivity.
Qed.

(** X17. With two columns or more beside the dependent variable the run
    completes: the axes of the grid are enough for every index, and each
    label but the first occurrence of the dependent variable gets its
    partial dependence, in column order, on the axes of its position. *)
Theorem shaped_many_features (model : Model) (df : DataFrame)
    (y_var_name : pyval) :
  column_key df y_var_name -> 3 <= List.length (labels df) ->
  exists tr,
    shaped_plot_partial_dependences model df y_var_name = (tr, inr tt) /\
    curves tr
    = map (fun p => (fst p, model, snd p))
        (enumerate (list_remove y_var_name (labels df))).
Proof.
  intros Hy Hmany. unfold shaped_plot_partial_dependences.
  rewrite (proj2 (py_in_column_key df y_var_name) Hy), abind_areturn.
  assert (Hlen : 2 <= List.length (list_remove y_var_name (labels df))).
  { destruct Hy as [name [-> Hcol]]. cbn [list_remove].
    pose proof (remove_first_length name (labels df) Hcol). lia. }
  set (X_features := list_remove y_var_name (labels df)) in *.
  assert (Hbranch : (1 <? List.length X_features) = true)
    by (apply Nat.ltb_lt; lia).
  rewrite Hbranch.
  assert (Hrows : exists r, ceil_half (List.length X_features) = S r).
  { pose proof (ceil_half_room (List.length X_features)).
    destruct (ceil_half (List.length X_features)); [lia | eauto]. }
  destruct Hrows as [r Hr]. unfold plt_subplots_grid. rewrite Hr.
  unfold abind at 2. cbn [draw acall areturn]. rewrite <- Hr.
  destruct (shaped_grid_loop model df y_var_name
              (ceil_half (List.length X_features) * 2) X_features 0 Hy)
    as [tr [Heq Hc]]; [apply ceil_half_room |].
  unfold abind at 1. unfold enumerate. rewrite Heq.
  eexists. split; [reflexivity |]. rewrite curves_app. exact Hc.
Qed.

(** ** plot_predicted_vs_actuals *)

Lemma df_drop_column df name :
  has_column df name = true ->
  exists d, df_drop df (PyStr name) = inr d /\ labels d = other_labels df name.
Proof. intros H. unfold df_drop. rewrite H. eauto. Qed.

Lemma other_labels_in df name c :
  In c (other_labels df name) -> In c (labels df).
Proof.
  unfold other_labels, labels. rewrite !in_map_iff.
  intros [p [Hp Hin]]. apply filter_In in Hin. exists p. tauto.
Qed.

(** X18. [plot_predicted_vs_actuals] draws a sample of [sample_limit]
    rows that it never uses: a limit above the rows of the dataframe makes
    the function raise before it creates its figure. *)
Theorem predicted_vs_actuals_sample_limit (df : DataFrame) (model : Model)
    (y_var_name : pyval) (sample_limit : nat) :
  column_key df y_var_name ->
  df_len df < sample_limit ->
  plot_predicted_vs_actuals df model y_var_name sample_limit
  = ([], inl (Raised SampleLargerThanPopulation)).
Proof.
  intros Hy Hlimit. unfold plot_predicted_vs_actuals.
  destruct (column_key_ops df y_var_name Hy) as [[d Hd] _]. rewrite Hd.
  rewrite of_result_inr, abind_areturn. unfold df_sample.
  apply Nat.leb_gt in Hlimit. now rewrite Hlimit.
Qed.

(** X19. With a dependent variable that names a column and a sample limit
    within the rows, [plot_predicted_vs_actuals] plots against the first
    column that is not the dependent variable, and against that one only.
    With unique labels, when the model predicts one value per row from the
    other columns, the title names that column and the actual and the
    predicted values are both scattered over it; when [model.predict]
    raises (on a column of strings, say), the run ends with that exception
    after the title and the actual values are drawn.  When the dependent
    variable labels every column, the run raises [IndexError] after
    creating the figure. *)
Theorem predicted_vs_actuals_first_column (df : DataFrame) (model : Model)
    (name : string) (sample_limit : nat) :
  has_column df name = true ->
  sample_limit <= df_len df ->
  (other_labels df name = [] ->
   plot_predicted_vs_actuals df model (PyStr name) sample_limit
   = ([Drawn (Subplots 1 1)], inl IndexError)) /\
  (forall column rest X,
     other_labels df name = column :: rest ->
     unique_labels df ->
     df_drop df (PyStr name) = inr X ->
     (predict model X = Returns (df_len df) ->
      plot_predicted_vs_actuals df model (PyStr name) sample_limit
      = ([Drawn (Subplots 1 1);
          Drawn (AxSetTitle 0 (class_name model ++ " Predicteds vs Actuals at "
                               ++ column)%string);
          AxScatter 0 column (Actuals (PyStr name)) (Some "grey");
          AxScatter 0 column Predictions None],
         inr tt)) /\
     (forall reason,
        predict model X = Fails reason ->
        plot_predicted_vs_actuals df model (PyStr name) sample_limit
        = ([Drawn (Subplots 1 1);
            Drawn (AxSetTitle 0 (class_name model
                                 ++ " Predicteds vs Actuals at "
                                 ++ column)%string);
            AxScatter 0 column (Actuals (PyStr name)) (Some "grey")],
           inl (Raised (LibraryError reason))))).
Proof.
  intros Hy Hlimit.
  destruct (df_drop_column df name Hy) as [d [Hd Hlabels]].
  assert (Hsample : df_sample df sample_limit = inr (labels df, sample_limit)).
  { unfold df_sample. apply Nat.leb_le in Hlimit. now rewrite Hlimit. }
  unfold plot_predicted_vs_actuals, draw. rewrite Hd, Hsample. act_run. split.
  - intros Hnone. unfold first_column. rewrite Hlabels, Hnone. reflexivity.
  - intros column rest X Hsome Hnd HX. injection HX as <-.
    assert (Hfirst : first_column d = areturn column).
    { unfold first_column. now rewrite Hlabels, Hsome. }
    destruct (df_getitem_series df column Hnd) as [sx Hxs].
    { apply (other_labels_in df name). rewrite Hsome. now left. }
    destruct (df_getitem_series df name Hnd) as [sy Hys];
      [now apply has_column_in |].
    assert (Hscatter : forall ys color,
              ax_scatter 0 column (df_len df) (df_len df) ys color
              = acall (AxScatter 0 column ys color)).
    { intros ys color. unfold ax_scatter. now rewrite Nat.eqb_refl. }
    split.
    + intros Hp.
      repeat (progress (rewrite ?Hfirst, ?Hxs, ?Hys, ?Hp; cbn [item_size outcome];
                        rewrite ?Hscatter; act_run)).
      reflexivity.
    + intros reason Hp.
      repeat (progress (rewrite ?Hfirst, ?Hxs, ?Hys, ?Hp; cbn [item_size outcome];
                        rewrite ?Hscatter; act_run)).
      reflexivity.
Qed.

(** ** plot_many_predicteds_vs_actuals *)

Lemma comparisons_app tr1 tr2 :
  comparisons (tr1 ++ tr2) = comparisons tr1 ++ comparisons tr2.
Proof. unfold comparisons. apply flat_map_app. Qed.

Lemma combine_seq_longer {A : Type} (l : list A) (k m : nat) :
  List.length l <= m ->
  combine (seq k m) l = combine (seq k (List.length l)) l.
Proof.
  revert k m. induction l as [| x l IH]; intros k m Hm.
  - now destruct (seq k m).
  - destruct m as [| m]; [simpl in Hm; lia |]. simpl in *.
    f_equal. apply IH. lia.
Qed.

Lemma getitem_missing_label df name :
  has_column df name = false ->
  df_getitem df (PyStr name) = inl (KeyError (PyStr name)).
Proof.
  intros H. apply df_getitem_missing. intros [name' [Heq Hcol]].
  inversion Heq; subst. congruence.
Qed.

Lemma comparisons_all df_X (l : list string) (k m : nat) :
  (forall name, In name l -> In name (labels df_X)) ->
  exists tr,
    afor_each (combine (seq k m) l)
      (fun '(ax, name) =>
         x <~ of_result (df_getitem df_X (PyStr name)) ;;
         acall (PredictedsVsActuals ax name) ;;;
         draw (AxSetTitle ax (name ++ " Predicteds vs. Actuals")%string))
    = (tr, inr tt) /\
    comparisons tr = combine (seq k m) l.
Proof.
  revert k m. induction l as [| name l IH]; intros k m Hl.
  - exists []. destruct (seq k m); split; reflexivity.
  - destruct m as [| m]; [exists []; split; reflexivity |].
    destruct (df_getitem_label df_X name (Hl name (or_introl eq_refl)))
      as [it Hit].
    destruct (IH (S k) m) as [tr [Heq Hc]].
    { intros name' Hin. apply Hl. now right. }
    cbn [seq combine afor_each]. rewrite Heq, Hit.
    exists ([PredictedsVsActuals k name;
             Drawn (AxSetTitle k (name ++ " Predicteds vs. Actuals")%string)]
            ++ tr).
    split; [reflexivity |]. rewrite comparisons_app, Hc. reflexivity.
Qed.

Lemma comparisons_until df_X (good : list string) (bad : string)
    (rest : list string) (k m : nat) :
  (forall name, In name good -> In name (labels df_X)) ->
  has_column df_X bad = false ->
  List.length good < m ->
  exists tr,
    afor_each (combine (seq k m) (good ++ bad :: rest))
      (fun '(ax, name) =>
         x <~ of_result (df_getitem df_X (PyStr name)) ;;
         acall (PredictedsVsActuals ax name) ;;;
         draw (AxSetTitle ax (name ++ " Predicteds vs. Actuals")%string))
    = (tr, inl (Raised (KeyError (PyStr bad)))) /\
    comparisons tr = combine (seq k (List.length good)) good.
Proof.
  intros Hgood Hbad. revert k m.
  induction good as [| name good IH]; intros k m Hm.
  - destruct m as [| m]; [simpl in Hm; lia |].
    exists []. cbn [app seq combine afor_each].
    rewrite (getitem_missing_label df_X bad Hbad). split; reflexivity.
  - destruct m as [| m]; [simpl in Hm; lia |].
    destruct (df_getitem_label df_X name (Hgood name (or_introl eq_refl)))
      as [it Hit].
    destruct (IH (fun n H => Hgood n (or_intror H)) (S k) m) as [tr [Heq Hc]];
      [simpl in Hm; lia |].
    cbn [app seq combine afor_each List.length]. rewrite Heq, Hit.
    exists ([PredictedsVsActuals k name;
             Drawn (AxSetTitle k (name ++ " Predicteds vs. Actuals")%string)]
            ++ tr).
    split; [reflexivity |]. rewrite comparisons_app, Hc. reflexivity.
Qed.

Lemma plt_subplots_grid_ok nrows ncols :
  1 <= nrows ->
  plt_subplots_grid nrows ncols
  = ([Drawn (Subplots nrows ncols)], inr (AxesArray (nrows * ncols))).
Proof. intros H. destruct nrows as [| n]; [lia | reflexivity]. Qed.

(** X20. For names that are all columns of the frame, one at least,
    [plot_many_predicteds_vs_actuals] completes and plots every name, in
    order, each on the axes of its position: the grid of two columns always
    has room, and an odd number of names leaves the last axes empty.  At
    the first name that is no column it raises [KeyError], with the names
    before it plotted. *)
Theorem predicteds_vs_actuals_names (df_X : DataFrame)
    (x_var_names : list string) :
  (x_var_names <> [] ->
   column_names df_X x_var_names ->
   exists tr,
     plot_many_predicteds_vs_actuals df_X x_var_names
     = (tr, inr (AxesArray (ceil_half (List.length x_var_names) * 2))) /\
     comparisons tr = enumerate x_var_names) /\
  (forall good bad rest,
     x_var_names = good ++ bad :: rest ->
     column_names df_X good -> has_column df_X bad = false ->
     exists tr,
       plot_many_predicteds_vs_actuals df_X x_var_names
       = (tr, inl (Raised (KeyError (PyStr bad)))) /\
       comparisons tr = enumerate good).
Proof.
  assert (Hrows : x_var_names <> [] ->
                  1 <= ceil_half (List.length x_var_names)).
  { intros Hne. pose proof (ceil_half_room (List.length x_var_names)) as Hroom.
    assert (Hpos : 1 <= List.length x_var_names).
    { destruct x_var_names; [contradiction | simpl; lia]. }
    clear Hne. lia. }
  assert (Hin : forall l, column_names df_X l ->
                  forall name, In name l -> In name (labels df_X)).
  { intros l Hl name Hname. apply has_column_in.
    unfold column_names in Hl. rewrite Forall_forall in Hl. now apply Hl. }
  split.
  - intros Hne Hcols. unfold plot_many_predicteds_vs_actuals.
    rewrite (plt_subplots_grid_ok _ 2 (Hrows Hne)). unfold abind at 1.
    cbn [zip_axes]. rewrite abind_areturn.
    destruct (comparisons_all df_X x_var_names 0
                (ceil_half (List.length x_var_names) * 2) (Hin _ Hcols))
      as [tr [Heq Hc]].
    unfold abind at 1. rewrite Heq. eexists. split; [reflexivity |].
    rewrite !comparisons_app, Hc. cbn. rewrite app_nil_r.
    apply combine_seq_longer. apply ceil_half_room.
  - intros good bad rest Hnames Hgood Hbad.
    assert (Hne : x_var_names <> []) by (subst; now destruct good).
    unfold plot_many_predicteds_vs_actuals.
    rewrite (plt_subplots_grid_ok _ 2 (Hrows Hne)). unfold abind at 1.
    cbn [zip_axes]. rewrite abind_areturn.
    pose proof (ceil_half_room (List.length x_var_names)) as Hroom.
    rewrite Hnames in *.
    destruct (comparisons_until df_X good bad rest 0
                (ceil_half (List.length (good ++ bad :: rest)) * 2)
                (Hin _ Hgood) Hbad) as [tr [Heq Hc]].
    { remember (ceil_half (List.length (good ++ bad :: rest))) as rows.
      rewrite length_app in Hroom. cbn [List.length] in Hroom. lia. }
    unfold abind at 1. rewrite Heq. eexists. split; [reflexivity |].
    rewrite !comparisons_app, Hc. reflexivity.
Qed.

(** ** plot_solution_paths *)

Lemma paths_loop ax points (l : list nat) :
  afor_each l (fun idx => acall (CoefficientPath ax idx points))
  = (map (fun idx => CoefficientPath ax idx points) l, inr tt).
Proof.
  induction l as [| idx l IH]; [reflexivity |].
  cbn [afor_each]. rewrite IH. reflexivity.
Qed.

(** X21. [plot_solution_paths] draws one path per coefficient, each
    through one point per regression, when there is a regression and all
    carry the same number of coefficients.  Of no regression, or of
    regressions whose numbers of coefficients differ, [np.concatenate]
    raises and nothing is drawn, the axis labels and title included. *)
Theorem solution_paths (ax : nat) (regressions : list (list cell)) :
  (regressions = [] ->
   plot_solution_paths ax regressions = ([], inl NothingToConcatenate)) /\
  (forall k,
     regressions <> [] ->
     Forall (fun coef => List.length coef = k) regressions ->
     plot_solution_paths ax regressions
     = (map (fun idx => CoefficientPath ax idx (List.length regressions))
          (seq 0 k)
        ++ [Drawn (AxSetXlabel ax "$\log_{10}(\alpha)$");
            Drawn (AxSetYlabel ax "Estimated Coefficient");
            Drawn (AxSetTitle ax "Coefficient Paths")],
        inr tt)) /\
  (forall first rest other,
     regressions = first :: rest ->
     In other rest -> List.length other <> List.length first ->
     plot_solution_paths ax regressions = ([], inl DimensionMismatch)).
Proof.
  split; [intros ->; reflexivity |]. split.
  - intros k Hne Hall. destruct regressions as [| first rest]; [contradiction |].
    unfold plot_solution_paths, np_concatenate.
    assert (Hfirst : List.length first = k) by now inversion Hall.
    assert (Hsame : forallb (fun r' => List.length r' =? List.length first)
                      (first :: rest) = true).
    { apply forallb_forall. intros r Hr. apply Nat.eqb_eq.
      rewrite Forall_forall in Hall. rewrite (Hall r Hr). now symmetry. }
    rewrite Hsame, abind_areturn. cbn [fst snd].
    unfold abind at 1. rewrite paths_loop, Hfirst. reflexivity.
  - intros first rest other -> Hin Hneq.
    unfold plot_solution_paths, np_concatenate.
    assert (Hdiff : forallb (fun r' => List.length r' =? List.length first)
                      (first :: rest) = false).
    { apply not_true_is_false. intros Hsame.
      rewrite forallb_forall in Hsame.
      specialize (Hsame other (or_intror Hin)).
      apply Nat.eqb_eq in Hsame. contradiction. }
    now rewrite Hdiff.
Qed.

(** ** simple_spline_specification *)

Lemma string_app_same_length (a b s t : string) :
  String.length s = String.length t ->
  (a ++ s)%string = (b ++ t)%string -> a = b /\ s = t.
Proof.
  intros Hlen. revert b. induction a as [| c a IH]; intros [| d b] Heq; simpl in *.
  - now split.
  - exfalso. subst s. simpl in Hlen. rewrite string_length_app in Hlen. lia.
  - exfalso. subst t. simpl in Hlen. rewrite string_length_app in Hlen. lia.
  - inversion Heq; subst. destruct (IH b H1) as [-> ->]. now split.
Qed.

(** X22. The two steps of a spline specification never share a name, and
    the specifications of two different features have no step name in
    common, whatever the feature names are: pipelines built from them can
    be put side by side under their step names. *)
Theorem spline_step_names_distinct (name name' : string) (knots knots' : nat) :
  NoDup (map fst (simple_spline_specification name knots)) /\
  (name <> name' ->
   forall step,
     In step (map fst (simple_spline_specification name knots)) ->
     ~ In step (map fst (simple_spline_specification name' knots'))).
Proof.
  split.
  - simpl. constructor; [| constructor; [intros [] | constructor]].
    intros [H | []].
    destruct (string_app_same_length name name "_spline" "_select" eq_refl H)
      as [_ Habs].
    discriminate.
  - intros Hneq step Hin Hin'. simpl in Hin, Hin'.
    destruct Hin as [<- | [<- | []]]; destruct Hin' as [H | [H | []]];
      match type of H with
      | (?b ++ ?t)%string = (?a ++ ?s)%string =>
          destruct (string_app_same_length a b s t eq_refl (eq_sym H))
            as [Hab Hst]
      end;
      first [ discriminate | congruence ].
Qed.

End Galgraphs.

(** * The theorems on concrete dataframes and models *)

(** A schema of one column per classified dtype, one unclassified, over
    natural numbers as cells. *)
Definition ex_schema : @DataFrame nat :=
  mkDataFrame 3
    [("a", mkSeries dtype_float [1; 2; 3]);
     ("b", mkSeries dtype_O [1; 1; 2]);
     ("c", mkSeries dtype_bool [0; 1; 0]);
     ("d", mkSeries dtype_int [4; 5; 6]);
     ("when", mkSeries (dtype_other "datetime64[ns]") [7; 8; 9])].

(** The dependent variable and six continuous features. *)
Definition ex_seven : @DataFrame nat :=
  mkDataFrame 3
    (map (fun name => (name, mkSeries dtype_float [1; 2; 3]))
       ["y"; "f1"; "f2"; "f3"; "f4"; "f5"; "f6"]).

(** Two columns worth a univariate plot, a two-valued flag and a string
    column. *)
Definition ex_mixed : @DataFrame nat :=
  mkDataFrame 3
    [("y", mkSeries dtype_float [1; 2; 3]);
     ("x", mkSeries dtype_int [4; 5; 6]);
     ("flag", mkSeries dtype_int [0; 1; 0]);
     ("city", mkSeries dtype_O [1; 2; 3])].

(** No column worth one. *)
Definition ex_flags : @DataFrame nat :=
  mkDataFrame 3
    [("flag", mkSeries dtype_int [0; 1; 0]);
     ("city", mkSeries dtype_O [1; 2; 3])].

(** A renderer that refuses a sample of no rows. *)
Definition ex_renderer (columns : list string) (rows : nat) : option string :=
  if rows =? 0 then Some "zero-size array"%string else None.

(** The cells of an object column stand for strings. *)
Definition ex_is_number (c : nat) : bool := false.

Definition ex_linear : Model :=
  mkModel "LinearRegression" "LinearRegression()"
    ["coef_"; "fit"; "intercept_"; "predict"] 0.

Definition ex_logistic : Model :=
  mkModel "LogisticRegression" "LogisticRegression()"
    ["coef_"; "fit"; "predict"; "predict_proba"] 0.

Definition ex_svc : Model :=
  mkModel "SVC" "SVC()" ["fit"; "predict"; "predict_proba"] 0.

(** The area of every model is computed but that of the SVC, whose
    [predict_proba] raises. *)
Definition ex_auc (model : Model) (X : @DataFrame nat) (y : unit)
    : computed string :=
  if String.eqb (class_name model) "SVC"
  then Fails "predict_proba is not available"
  else Returns "0.50"%string.

(** A model that predicts one value per row. *)
Definition ex_predict (model : Model) (X : @DataFrame nat) : computed nat :=
  Returns (df_len X).

Ltac distinct_labels :=
  unfold unique_labels, labels; simpl;
  repeat (constructor; [simpl; intuition discriminate |]); constructor.

Lemma chunk_count_seven :
  exists tr,
    plot_scatter_matrix ex_renderer ex_seven (PyStr "y") = (tr, inr tt) /\
    List.length (chunks tr) = 2.
Proof.
  exact (proj1 (proj2 (chunk_count ex_renderer ex_seven)) "y" eq_refl
           (fun columns => eq_refl)).
Defined.

Lemma missing_importances_raise_linear :
  plot_feature_importances ex_linear ex_seven
  = ([], inl (ValueError
       "Model: LinearRegression() doesn't have feature_importances_, unable to plot")).
Proof.
  exact (proj1 (missing_importances_raise ex_linear ex_seven eq_refl)).
Defined.


Lemma no_eligible_features_print_flags :
  plot_many_univariates Nat.eq_dec ex_is_number ex_flags (PyStr "flag")
  = ([PyPrint "No Continous Features to Plot"], inr tt).
Proof.
  refine (proj1 (no_eligible_features_print Nat.eq_dec ex_is_number ex_flags
                   (PyStr "flag") _ _)).
  - distinct_labels.
  - intros x s [H | [H | []]]; inversion H; reflexivity.
Defined.


(** * The further properties on concrete inputs *)

(** The label a carried by two integer columns. *)
Definition ex_twice : @DataFrame nat :=
  mkDataFrame 3
    [("a", mkSeries dtype_int [1; 2; 3]);
     ("a", mkSeries dtype_int [4; 5; 6])].

(** The dependent variable and one feature. *)
Definition ex_pair : @DataFrame nat :=
  mkDataFrame 3
    [("y", mkSeries dtype_float [1; 2; 3]);
     ("x", mkSeries dtype_float [4; 5; 6])].

(** The dependent variable alone, in one row. *)
Definition ex_alone : @DataFrame nat :=
  mkDataFrame 1 [("y", mkSeries dtype_float [1])].

Lemma scatter_matrix_completes_seven :
  exists tr, plot_scatter_matrix ex_renderer ex_seven (PyStr "y") = (tr, inr tt).
Proof.
  refine (proj1 (proj2 (scatter_matrix_completes_iff ex_renderer ex_seven
                          (PyStr "y"))) _ (fun columns => eq_refl)).
  exists "y"%string. split; reflexivity.
Defined.

Lemma chunks_by_position_seven :
  exists tr k,
    plot_scatter_matrix ex_renderer ex_seven (PyStr "y") = (tr, inr tt) /\
    chunks tr
    = map (loop_chunk "y" ["f1"; "f2"; "f3"; "f4"; "f5"; "f6"]) (seq 0 k)
      ++ [last_chunk "y" ["f1"; "f2"; "f3"; "f4"; "f5"; "f6"] k] /\
    List.length (last_chunk "y" ["f1"; "f2"; "f3"; "f4"; "f5"; "f6"] k) <= 6 /\
    (k = 0 \/ 5 * k < 6).
Proof.
  refine (chunks_by_position ex_renderer ex_seven "y" _ eq_refl _
            (fun columns => eq_refl)).
  - distinct_labels.
  - discriminate.
Defined.


Lemma univariates_missing_dependent_mixed :
  exists nrows ncols,
    plot_many_univariates Nat.eq_dec ex_is_number ex_mixed (PyStr "z")
    = ([Subplots nrows ncols], inl (KeyError (PyStr "z"))).
Proof.
  refine (univariates_missing_dependent Nat.eq_dec ex_is_number ex_mixed
            (PyStr "z") "x" (mkSeries dtype_int [4; 5; 6]) _ _ _ eq_refl).
  - distinct_labels.
  - intros [name [Heq Hcol]]. inversion Heq; subst. discriminate.
  - simpl. right. now left.
Defined.

Lemma repeated_label_raises_twice :
  plot_many_univariates Nat.eq_dec ex_is_number ex_twice (PyStr "a")
  = ([], inl (NoAttribute "unique")).
Proof.
  refine (repeated_label_raises Nat.eq_dec ex_is_number ex_twice (PyStr "a")
            "a" _ _).
  - simpl. now left.
  - simpl. lia.
Defined.

Lemma plot_rocs_trace_failing :
  plot_rocs ex_auc [ex_logistic; ex_linear; ex_svc; ex_logistic] ex_pair tt None
  = ([Subplots 1 1;
      AxSetTitle 0 "Receiver Operating Characteristic";
      RocCurve 0 "AUC LogisticRegression = 0.50";
      AxLegend 0; ChanceLine 0; AxSetXlim 0; AxSetYlim 0;
      AxSetYlabel 0 "True Positive Rate";
      AxSetXlabel 0 "False Positive Rate"],
     inl (LibraryError "predict_proba is not available")).
Proof.
  refine (proj1 (proj2 (plot_rocs_trace ex_auc ex_pair tt None
                          (fun _ => "0.50"%string)))
            ex_pair [ex_logistic; ex_linear] ex_svc [ex_logistic]
            "predict_proba is not available"%string eq_refl _ eq_refl eq_refl).
  intros model [<- | [<- | []]] H; [reflexivity | discriminate].
Defined.

Lemma emperical_distribution_counts_example :
  emperical_distribution [1; 5; 3]%Z [2; 4]%Z
  = inr [mkFraction 0 2; mkFraction 2 2; mkFraction 1 2].
Proof.
  refine (proj2 (emperical_distribution_counts [1; 5; 3]%Z [2; 4]%Z) _).
  discriminate.
Defined.

Lemma emperical_distribution_grows_example :
  num (mkFraction 0 2) <= num (mkFraction 1 2).
Proof.
  refine (proj2 (proj2 (emperical_distribution_is_a_distribution
                          [1; 5; 3]%Z [2; 4]%Z
                          [mkFraction 0 2; mkFraction 2 2; mkFraction 1 2]
                          eq_refl))
            0 2 1%Z 3%Z _ _ eq_refl eq_refl eq_refl eq_refl _).
  lia.
Defined.

Lemma display_coef_row_count_array :
  exists tr,
    gal_display_coef [Scalar "0.5"; NotScalar; Scalar "2.0"]
      ["age"; "height"; "weight"]
    = (tr, inl FormatError) /\
    printed tr
    = [table_row "Name" "Parameter Estimate";
       string_of_list_ascii (repeat "-"%char 55);
       table_row "age" "0.5"].
Proof.
  refine (proj2 (proj2 (display_coef_row_count ["0.5"%string] [Scalar "2.0"]
                          ["age"; "height"; "weight"]%string)) _).
  simpl. lia.
Defined.

Lemma residuals_rows_not_columns_mixed :
  exists tr,
    plot_many_residuals ex_mixed (Returns 3) = (tr, inr (AxesArray 3)) /\
    scattered tr = ["y"; "x"; "flag"].
Proof.
  refine (proj1 (proj2 (residuals_rows_not_columns ex_mixed (Returns 3)))
            _ _ eq_refl).
  - simpl. lia.
  - distinct_labels.
Defined.

Lemma dependences_curves_two :
  exists tr,
    plot_partial_dependences ex_linear ["x"; "flag"] (Some [ex_linear])
    = (tr, inr (AxesArray 2)) /\
    curves tr
    = [(0, ex_linear, "x"); (0, ex_linear, "x");
       (1, ex_linear, "flag"); (1, ex_linear, "flag")].
Proof.
  refine (proj2 (dependences_curves ex_linear ["x"; "flag"]
                   (Some [ex_linear])) _).
  simpl. lia.
Defined.

Lemma shaped_nothing_to_plot_alone :
  shaped_plot_partial_dependences ex_linear ex_alone (PyStr "y")
  = ([Drawn (PyPrint "No Features to Plot")], inr tt).
Proof.
  refine (proj2 (shaped_nothing_to_plot ex_linear ex_alone (PyStr "y")) _ eq_refl).
  exists "y". split; reflexivity.
Defined.

Lemma shaped_single_feature_raises_pair :
  exists X_feature,
    list_remove (PyStr "y") (labels ex_pair) = [X_feature] /\
    shaped_plot_partial_dependences ex_linear ex_pair (PyStr "y")
    = ([Drawn (Subplots 1 1);
        PartialDependence 0 ex_linear X_feature None;
        Drawn (AxSetTitle 0 (X_feature ++ ": Partial Dependence Plots "
                             ++ class_name ex_linear)%string)],
       inl (Raised (NoAttribute "set_title"))).
Proof.
  refine (shaped_single_feature_raises ex_linear ex_pair (PyStr "y") _ eq_refl).
  exists "y". split; reflexivity.
Defined.

Lemma shaped_many_features_mixed :
  exists tr,
    shaped_plot_partial_dependences ex_linear ex_mixed (PyStr "y")
    = (tr, inr tt) /\
    curves tr
    = [(0, ex_linear, "x"); (1, ex_linear, "flag"); (2, ex_linear, "city")].
Proof.
  refine (shaped_many_features ex_linear ex_mixed (PyStr "y") _ _).
  - exists "y". split; reflexivity.
  - simpl. lia.
Defined.

Lemma predicted_vs_actuals_sample_limit_mixed :
  plot_predicted_vs_actuals ex_predict ex_mixed ex_linear (PyStr "y") 300
  = ([], inl (Raised SampleLargerThanPopulation)).
Proof.
  refine (predicted_vs_actuals_sample_limit ex_predict ex_mixed ex_linear
            (PyStr "y") 300 _ _).
  - exists "y". split; reflexivity.
  - simpl. lia.
Defined.

Lemma predicted_vs_actuals_first_column_mixed :
  plot_predicted_vs_actuals ex_predict ex_mixed ex_linear (PyStr "y") 3
  = ([Drawn (Subplots 1 1);
      Drawn (AxSetTitle 0 "LinearRegression Predicteds vs Actuals at x");
      AxScatter 0 "x" (Actuals (PyStr "y")) (Some "grey");
      AxScatter 0 "x" Predictions None],
     inr tt).
Proof.
  refine (proj1 (proj2 (predicted_vs_actuals_first_column ex_predict ex_mixed
                          ex_linear "y" 3 eq_refl _)
                   "x" ["flag"; "city"]
                   (mkDataFrame 3
                      [("x", mkSeries dtype_int [4; 5; 6]);
                       ("flag", mkSeries dtype_int [0; 1; 0]);
                       ("city", mkSeries dtype_O [1; 2; 3])])
                   eq_refl _ eq_refl)
            eq_refl).
  - simpl. lia.
  - distinct_labels.
Defined.

Lemma predicteds_vs_actuals_names_mixed :
  exists tr,
    plot_many_predicteds_vs_actuals ex_mixed ["x"; "zip"; "flag"]
    = (tr, inl (Raised (KeyError (PyStr "zip")))) /\
    comparisons tr = [(0, "x")].
Proof.
  refine (proj2 (predicteds_vs_actuals_names ex_mixed ["x"; "zip"; "flag"])
            ["x"] "zip" ["flag"] eq_refl _ eq_refl).
  repeat constructor.
Defined.

Lemma solution_paths_two_by_three :
  plot_solution_paths 0 [[1; 2; 3]; [4; 5; 6]]
  = ([CoefficientPath 0 0 2; CoefficientPath 0 1 2; CoefficientPath 0 2 2;
      Drawn (AxSetXlabel 0 "$\log_{10}(\alpha)$");
      Drawn (AxSetYlabel 0 "Estimated Coefficient");
      Drawn (AxSetTitle 0 "Coefficient Paths")],
     inr tt).
Proof.
  refine (proj1 (proj2 (solution_paths 0 [[1; 2; 3]; [4; 5; 6]])) 3 _ _).
  - discriminate.
  - repeat constructor.
Defined.
